(** * Pipeline stages of the LLaMA model (models/llama_pipeline_model.py)

    A shallow embedding of the stage wrappers, the stage-sequence builder,
    the loss contract and the topology/seed assignment of
    [models/llama_pipeline_model.py], with the properties of its
    specification stated and proved over that embedding.

    Python integers are [Z]; Python tuples are lists of values; a raised
    exception is an explicit [Raise]; the calls [get_model] makes into the
    distributed runtime are recorded, in order, in a trace.  The numerical
    kernels of torch / transformers are the fields of the class [Backend]. *)

From Stdlib Require Import ZArith List Lia Bool.
From Stdlib Require Import Floats.SpecFloat.
From stdpp Require Import gmap strings list.

Open Scope Z_scope.

Set Warnings "-register-all".

(** ** Exceptions and results *)

Inductive exn : Set :=
| AssertionError
| ZeroDivisionError
| ValueError
| AttributeError
| TypeError
| IndexError
| RuntimeError.

Inductive result (A : Type) : Type :=
| Ok (a : A)
| Raise (e : exn).

Arguments Ok {A} a.
Arguments Raise {A} e.

#[global] Instance result_ret : MRet result := fun A a => Ok a.
#[global] Instance result_bind : MBind result :=
  fun A B f r => match r with Ok a => f a | Raise e => Raise e end.

#[global] Instance result_fmap : FMap result :=
  fun A B f r => match r with Ok a => Ok (f a) | Raise e => Raise e end.

(** ** Tensors and Python values *)

(** An entry of a tensor: torch.bool, torch.int64 or a floating dtype.
    Floating entries are IEEE values in the Standard Library's
    format-independent representation. *)
Inductive scalar : Set :=
| SBool (b : bool)
| SLong (z : Z)
| SFloat (f : spec_float).

Record tensor : Set := mkTensor { t_shape : list Z; t_data : list scalar }.

Inductive value : Set :=
| VNone
| VBool (b : bool)
| VInt (z : Z)
| VTensor (t : tensor)
| VTuple (vs : list value).

Definition tmap (f : scalar -> scalar) (t : tensor) : tensor :=
  mkTensor (t_shape t) (map f (t_data t)).

(** [float("-inf")] and the float that the integer literal [0] becomes. *)
Definition neg_inf : spec_float := S754_infinity true.
Definition pos_zero : spec_float := S754_zero false.

(** The value 1.0, whatever the floating format. *)
Definition SF_is_one (f : spec_float) : bool :=
  match f with
  | S754_finite false m e => (e <=? 0) && (Z.pos m =? 2 ^ (- e))
  | _ => false
  end.

(** [x == True], entry by entry: [True] compares equal to 1. *)
Definition scalar_eq_True (s : scalar) : scalar :=
  match s with
  | SBool b => SBool b
  | SLong z => SBool (z =? 1)
  | SFloat f => SBool (SF_is_one f)
  end.

(** Truth of a condition entry (nonzero). *)
Definition scalar_truth (s : scalar) : bool :=
  match s with
  | SBool b => b
  | SLong z => negb (z =? 0)
  | SFloat (S754_zero _) => false
  | SFloat _ => true
  end.

(** [torch.where(cond, float("-inf"), 0)]: a floating tensor of the
    condition's shape. *)
Definition where_neg_inf_0 (cond : tensor) : tensor :=
  tmap (fun c => SFloat (if scalar_truth c then neg_inf else pos_zero)) cond.

Definition int64_min : Z := - 2 ^ 63.
Definition int64_max : Z := 2 ^ 63 - 1.

Definition in_int64 (z : Z) : bool := (int64_min <=? z) && (z <=? int64_max).

(** The integer a finite float truncates to (rounding toward zero). *)
Definition SFtrunc (f : spec_float) : option Z :=
  match f with
  | S754_zero _ => Some 0
  | S754_finite s m e =>
      let a := if 0 <=? e then Z.pos m * 2 ^ e else Z.pos m / 2 ^ (- e) in
      Some (if s then - a else a)
  | S754_infinity _ | S754_nan => None
  end.

(** [float -> int64] as the hardware converts: what has no int64
    counterpart (infinities, NaN, out of range) becomes the "integer
    indefinite" value 0x8000000000000000, the most negative int64. *)
Definition float_to_long (f : spec_float) : Z :=
  match SFtrunc f with
  | Some z => if in_int64 z then z else int64_min
  | None => int64_min
  end.

(** [.long()], entry by entry. *)
Definition scalar_long (s : scalar) : scalar :=
  match s with
  | SBool b => SLong (if b then 1 else 0)
  | SLong z => SLong z
  | SFloat f => SLong (float_to_long f)
  end.

Definition tensor_long : tensor -> tensor := tmap scalar_long.
Definition tensor_eq_True : tensor -> tensor := tmap scalar_eq_True.

(** [torch.where(mask == True, float("-inf"), 0).long()]
    (lines 30 and 41).  A mask that is not a tensor makes [mask == True] a
    plain bool, which [torch.where] refuses as a condition. *)
Definition mask_to_bias (mask : value) : result tensor :=
  match mask with
  | VTensor m => Ok (tensor_long (where_neg_inf_0 (tensor_eq_True m)))
  | _ => Raise TypeError
  end.

(** Python's truth test ([if x:]).  A tensor with several entries has no
    truth value. *)
Definition truthy (v : value) : result bool :=
  match v with
  | VNone => Ok false
  | VBool b => Ok b
  | VInt z => Ok (negb (z =? 0))
  | VTuple vs => Ok (match vs with [] => false | _ => true end)
  | VTensor t =>
      match t_data t with
      | [s] => Ok (scalar_truth s)
      | _ => Raise RuntimeError
      end
  end.

Definition value_shape (v : value) : option (list Z) :=
  match v with
  | VTensor t => Some (t_shape t)
  | _ => None
  end.

(** ** Model configuration *)

(** The fields of [LlamaConfig] that this file reads. *)
Record LlamaConfig : Set := mkConfig {
  vocab_size : Z;
  hidden_size : Z;
  num_hidden_layers : Z;
  rms_norm_eps : spec_float
}.

(** ** The numerical kernels

    What torch and transformers supply: the layers' own forward
    computations and the contents of freshly allocated parameters. *)
Class Backend : Type := {
  (** the parameters and submodules of a [LlamaDecoderLayer] *)
  DecoderState : Type;
  (** the state of the random-number generators *)
  Rng : Type;
  (** [LlamaDecoderLayer.__init__(config)] *)
  decoder_init : LlamaConfig -> DecoderState;
  (** [LlamaDecoderLayer.forward(self, hidden_states, attention_mask,
      position_ids)]: the tuple [outputs] *)
  decoder_forward : DecoderState -> Rng -> value -> value -> value -> result (list value);
  (** [torch.nn.Embedding.forward]: [F.embedding(input, weight)] *)
  embedding_forward : tensor -> value -> result value;
  (** [LlamaRMSNorm.forward] with its weight and epsilon *)
  rms_norm_forward : tensor -> spec_float -> value -> result value;
  (** [F.linear(input, weight, bias)] *)
  F_linear : value -> tensor -> option tensor -> result value;
  (** [F.cross_entropy(input, target)] *)
  F_cross_entropy : tensor -> tensor -> result value;
  (** the entries a new parameter of a given shape starts with *)
  init_data : list Z -> list scalar
}.

(** ** Layer objects *)

(** The classes an object of this file can have. *)
Inductive cls : Set :=
| Embedding
| EmbeddingPipe
| LlamaDecoderLayer
| ParallelTransformerLayerPipe
| LlamaRMSNorm
| LayerNormPipe
| Linear
| LMLayerPipe.

Section Stages.
Context {B : Backend}.

(** The state a library constructor gives an object. *)
Inductive payload : Type :=
| PEmbedding (weight : tensor)
| PDecoder (st : DecoderState)
| PRMSNorm (weight : tensor) (eps : spec_float)
| PLinear (weight : tensor) (bias : option tensor).

(** A layer object: its class (assignable, as [layer.__class__ = ...]
    does), the instance attributes this file sets and reads, and the
    library's own state. *)
Record module : Type := mkModule {
  m_class : cls;
  m_dict : gmap string value;
  m_payload : payload
}.

(** [self.name]: none of the classes defines [name] itself, so a missing
    instance attribute is an [AttributeError]. *)
Definition getattr (self : module) (name : string) : result value :=
  match m_dict self !! name with
  | Some v => Ok v
  | None => Raise AttributeError
  end.

Definition set_class (c : cls) (layer : module) : module :=
  mkModule c (m_dict layer) (m_payload layer).

(** A new parameter: [torch.empty(shape)], refused for a negative size. *)
Definition new_parameter (shape : list Z) : result tensor :=
  if forallb (Z.leb 0) shape then Ok (mkTensor shape (init_data shape))
  else Raise RuntimeError.

(** 1.0 in single precision. *)
Definition one_f32 : spec_float := S754_finite false 8388608 (-23).

(** [torch.ones(n)] *)
Definition torch_ones (n : Z) : result tensor :=
  if 0 <=? n then Ok (mkTensor [n] (replicate (Z.to_nat n) (SFloat one_f32)))
  else Raise RuntimeError.

(** *** Embedding stage (lines 9-17) *)

Definition Embedding_forward (self : module) (input : value) : result value :=
  match m_payload self with
  | PEmbedding weight => embedding_forward weight input
  | _ => Raise AttributeError
  end.

Definition EmbeddingPipe_forward (self : module) (args : list value) : result (list value) :=
  match args with
  | [input_ids; position_ids; attention_mask] =>
      inputs_embeds ← Embedding_forward self input_ids;
      Ok [inputs_embeds; position_ids; attention_mask]
  | _ => Raise ValueError
  end.

Definition _wrap_embed_layer (layer : module) : module :=
  set_class EmbeddingPipe layer.

(** *** Transformer-block stage (lines 20-63) *)

Definition LlamaDecoderLayer_forward (self : module) (rng : Rng)
    (hidden_states attention_mask position_ids : value) : result (list value) :=
  match m_payload self with
  | PDecoder st => decoder_forward st rng hidden_states attention_mask position_ids
  | _ => Raise AttributeError
  end.

(** [deepspeed.checkpointing.checkpoint(function, *args)]: it runs
    [function] on the arguments and gathers what it returned in a list;
    "deepspeed checkpoint auto use outputs[0] if len(outputs) == 1"
    (line 48), otherwise the caller gets the tuple. *)
Definition checkpoint (function : list value -> result (list value))
    (args : list value) : result value :=
  all_outputs ← function args;
  match all_outputs with
  | [o] => Ok o
  | _ => Ok (VTuple all_outputs)
  end.

(** [create_custom_forward(module)] (lines 43-46) *)
Definition create_custom_forward (module : module) (rng : Rng)
    (inputs : list value) : result (list value) :=
  match inputs with
  | [hidden_states; attention_mask; position_ids] =>
      LlamaDecoderLayer_forward module rng hidden_states attention_mask position_ids
  | _ => Raise TypeError
  end.

Definition _ckpt_forward (self : module) (rng : Rng) (args : list value)
    : result (list value) :=
  match args with
  | [hidden_states; position_ids; mask] =>
      attention_mask ← mask_to_bias mask;
      outputs ← checkpoint (create_custom_forward self rng)
                  [hidden_states; VTensor attention_mask; position_ids];
      Ok [outputs; position_ids; mask]
  | _ => Raise ValueError
  end.

(** [outputs[0]] *)
Definition item0 (outputs : list value) : result value :=
  match outputs with
  | o :: _ => Ok o
  | [] => Raise IndexError
  end.

Definition ParallelTransformerLayerPipe_forward (self : module) (rng : Rng)
    (args : list value) : result (list value) :=
  flag ← getattr self "activation_checkpointing";
  on ← truthy flag;
  if on : bool then _ckpt_forward self rng args
  else
    match args with
    | [hidden_states; position_ids; mask] =>
        attention_mask ← mask_to_bias mask;
        outputs ← LlamaDecoderLayer_forward self rng hidden_states
                    (VTensor attention_mask) position_ids;
        o ← item0 outputs;
        Ok [o; position_ids; mask]
    | _ => Raise ValueError
    end.

(** [ParallelTransformerLayerPipe(config, activation_checkpointing)]
    (lines 21-23) *)
Definition ParallelTransformerLayerPipe_init (config : LlamaConfig)
    (activation_checkpointing : bool) : module :=
  mkModule ParallelTransformerLayerPipe
           (<["activation_checkpointing" := VBool activation_checkpointing]> ∅)
           (PDecoder (decoder_init config)).

(** [LlamaDecoderLayer(config)], the library's own layer. *)
Definition LlamaDecoderLayer_init (config : LlamaConfig) : module :=
  mkModule LlamaDecoderLayer ∅ (PDecoder (decoder_init config)).

(** Lines 59-63: the flag is received and not used. *)
Definition _wrap_decoder_layer (layer : module) (activation_checkpointing : bool) : module :=
  set_class ParallelTransformerLayerPipe layer.

(** *** Normalization stage (lines 66-74) *)

Definition LlamaRMSNorm_forward (self : module) (hidden_states : value) : result value :=
  match m_payload self with
  | PRMSNorm weight eps => rms_norm_forward weight eps hidden_states
  | _ => Raise AttributeError
  end.

Definition LayerNormPipe_forward (self : module) (args : list value) : result (list value) :=
  match args with
  | hidden_states :: _ =>
      last_hidden_states ← LlamaRMSNorm_forward self hidden_states;
      Ok [last_hidden_states]
  | [] => Raise ValueError
  end.

Definition _wrap_norm_layer (layer : module) : module :=
  set_class LayerNormPipe layer.

(** *** Output-projection stage (lines 77-85) *)

Definition Linear_forward (self : module) (input : value) : result value :=
  match m_payload self with
  | PLinear weight bias => F_linear input weight bias
  | _ => Raise AttributeError
  end.

Definition LMLayerPipe_forward (self : module) (args : list value) : result (list value) :=
  match args with
  | [hidden_states] =>
      logits ← Linear_forward self hidden_states;
      Ok [logits]
  | _ => Raise ValueError
  end.

Definition _wrap_lm_layer (layer : module) : module :=
  set_class LMLayerPipe layer.

(** *** Calling a stage: the method its class selects

    The four stage classes take and return a pipeline tuple.  An object
    still of a library class runs the library's forward on the tuple as
    its one positional argument. *)
Definition forward (self : module) (rng : Rng) (args : list value) : result value :=
  match m_class self with
  | EmbeddingPipe => VTuple <$> EmbeddingPipe_forward self args
  | ParallelTransformerLayerPipe => VTuple <$> ParallelTransformerLayerPipe_forward self rng args
  | LayerNormPipe => VTuple <$> LayerNormPipe_forward self args
  | LMLayerPipe => VTuple <$> LMLayerPipe_forward self args
  | Embedding => Embedding_forward self (VTuple args)
  | LlamaDecoderLayer => VTuple <$> LlamaDecoderLayer_forward self rng (VTuple args) VNone VNone
  | LlamaRMSNorm => LlamaRMSNorm_forward self (VTuple args)
  | Linear => Linear_forward self (VTuple args)
  end.

(** *** The eager list of stages (lines 88-95) *)

(** An instantiated causal-LM model: [lm_model.model.embed_tokens],
    [lm_model.model.layers], [lm_model.model.norm], [lm_model.lm_head]. *)
Record lm_model : Type := mkLM {
  embed_tokens : module;
  layers : list module;
  norm : module;
  lm_head : module
}.

Definition _to_layers (lm : lm_model) (activation_checkpointing : bool) : list module :=
  _wrap_embed_layer (embed_tokens lm)
  :: map (fun layer => _wrap_decoder_layer layer activation_checkpointing) (layers lm)
  ++ [_wrap_norm_layer (norm lm); _wrap_lm_layer (lm_head lm)].

(** ** Stage specifications *)

(** [LayerSpec(typename, *args, **kwargs)] for the four stage classes. *)
Inductive LayerSpec : Set :=
| Spec_EmbeddingPipe (num_embeddings embedding_dim : Z)
| Spec_ParallelTransformerLayerPipe (config : LlamaConfig) (activation_checkpointing : bool)
| Spec_LayerNormPipe (hidden_size : Z) (eps : spec_float)
| Spec_LMLayerPipe (in_features out_features : Z) (bias : bool).

(** [LayerSpec.build()]: the class called on the stored arguments. *)
Definition build (spec : LayerSpec) : result module :=
  match spec with
  | Spec_EmbeddingPipe num_embeddings embedding_dim =>
      weight ← new_parameter [num_embeddings; embedding_dim];
      Ok (mkModule EmbeddingPipe ∅ (PEmbedding weight))
  | Spec_ParallelTransformerLayerPipe config activation_checkpointing =>
      Ok (ParallelTransformerLayerPipe_init config activation_checkpointing)
  | Spec_LayerNormPipe hidden_size eps =>
      weight ← torch_ones hidden_size;
      Ok (mkModule LayerNormPipe ∅ (PRMSNorm weight eps))
  | Spec_LMLayerPipe in_features out_features bias =>
      weight ← new_parameter [out_features; in_features];
      b ← (if bias then Some <$> new_parameter [out_features] else Ok None);
      Ok (mkModule LMLayerPipe ∅ (PLinear weight b))
  end.

(** [range(n)] *)
Definition range (n : Z) : list Z := seqZ 0 n.

(** [x is not None] *)
Definition is_not_None {A} (x : option A) : bool :=
  match x with Some _ => true | None => false end.

(** The list [layers=[...]] of lines 158-164. *)
Definition stage_specs (model_config : LlamaConfig)
    (activation_checkpointing_config : option (gmap string value)) : list LayerSpec :=
  Spec_EmbeddingPipe (vocab_size model_config + 1) (hidden_size model_config)
  :: map (fun _ => Spec_ParallelTransformerLayerPipe model_config
                     (is_not_None activation_checkpointing_config))
         (range (num_hidden_layers model_config))
  ++ [Spec_LayerNormPipe (hidden_size model_config) (rms_norm_eps model_config);
      Spec_LMLayerPipe (hidden_size model_config) (vocab_size model_config + 1) false].

(** ** Loss (lines 98-105) *)

Definition numel (t : tensor) : Z := fold_right Z.mul 1 (t_shape t).

(** [t.shape[-1]] *)
Definition last_dim (t : tensor) : result Z :=
  match last (t_shape t) with
  | Some d => Ok d
  | None => Raise IndexError
  end.

(** [t.view(-1, c)] *)
Definition view_rows (t : tensor) (c : Z) : result tensor :=
  if (c <=? 0) || negb (numel t mod c =? 0) then Raise RuntimeError
  else Ok (mkTensor [numel t / c; c] (t_data t)).

(** [t.view(-1)] *)
Definition view_flat (t : tensor) : tensor := mkTensor [numel t] (t_data t).

Definition loss_fn (outputs : list value) (labels : value) : result value :=
  match outputs with
  | [logits] =>
      match logits, labels with
      | VTensor lg, VTensor lb =>
          c ← last_dim lg;
          input ← view_rows lg c;
          F_cross_entropy input (view_flat lb)
      | _, _ => Raise AttributeError
      end
  | _ => Raise ValueError
  end.

(** ** Topology

    [deepspeed.runtime.pipe.topology.PipeModelDataParallelTopology]: the
    axes are pipe, data, model, in that order, and the ranks number the
    coordinates of the cartesian product of the three ranges. *)

Record ProcessCoord : Set := mkCoord { pipe : Z; data : Z; model : Z }.

Record Topology : Set := mkTopology { num_pp : Z; num_mp : Z; num_dp : Z }.

Definition PipeModelDataParallelTopology (num_pp num_mp num_dp : Z) : Topology :=
  mkTopology num_pp num_mp num_dp.

(** The coordinates in rank order. *)
Definition mapping (topo : Topology) : list ProcessCoord :=
  flat_map (fun p =>
    flat_map (fun d =>
      map (fun m => mkCoord p d m) (range (num_mp topo)))
      (range (num_dp topo)))
    (range (num_pp topo)).

(** [topo.get_coord(rank)]: a rank that is not in the topology is a
    [ValueError]. *)
Definition get_coord (topo : Topology) (rank : Z) : result ProcessCoord :=
  if rank <? 0 then Raise ValueError
  else match mapping topo !! Z.to_nat rank with
       | Some coord => Ok coord
       | None => Raise ValueError
       end.

(** [topo.get_dim('pipe')] *)
Definition get_dim_pipe (topo : Topology) : Z := num_pp topo.

(** ** Building the pipeline model (lines 144-183) *)

(** The fields of [args] that [get_model] reads; [seed] is assigned to. *)
Record Args : Set := mkArgs {
  pipe_parallel_size : Z;
  model_parallel_size : Z;
  world_size : Z;
  seed : Z
}.

Definition set_seed (s : Z) (args : Args) : Args :=
  mkArgs (pipe_parallel_size args) (model_parallel_size args) (world_size args) s.

(** The calls into the distributed runtime, as they happen. *)
Inductive call : Type :=
| Call_Topology (num_pp num_mp num_dp : Z)
| Call_get_rank
| Call_configure (partition_activations contiguous_checkpointing checkpoint_in_cpu
                  num_checkpoints synchronize profile : value)
| Call_LayerSpec (spec : LayerSpec)
| Call_PipelineModule.

(** What [PipelineModule.__init__] receives. *)
Record PipelineModule : Type := mkPipelineModule {
  pm_layers : list LayerSpec;
  pm_loss_fn : list value -> value -> result value;
  pm_topology : Topology;
  pm_base_seed : Z
}.

(** The state [get_model] runs in: the [args] object and the calls made
    so far. *)
Record state : Type := mkState { st_args : Args; st_calls : list call }.

(** Computations that read and write the state and may raise. *)
Definition M (A : Type) : Type := state -> result A * state.

#[global] Instance M_ret : MRet M := fun A a st => (Ok a, st).
#[global] Instance M_bind : MBind M := fun A B f m st =>
  match m st with
  | (Ok a, st') => f a st'
  | (Raise e, st') => (Raise e, st')
  end.

Definition get_args : M Args := fun st => (Ok (st_args st), st).
Definition put_args (args : Args) : M unit :=
  fun st => (Ok tt, mkState args (st_calls st)).
Definition tell (cs : list call) : M unit :=
  fun st => (Ok tt, mkState (st_args st) (st_calls st ++ cs)).
Definition lift {A} (r : result A) : M A := fun st => (r, st).
Definition py_assert (b : bool) : M unit :=
  lift (if b then Ok tt else Raise AssertionError).

(** [a % b] and [a // b] *)
Definition py_mod (a b : Z) : result Z :=
  if b =? 0 then Raise ZeroDivisionError else Ok (a mod b).
Definition py_floordiv (a b : Z) : result Z :=
  if b =? 0 then Raise ZeroDivisionError else Ok (a / b).

(** The truth of the optional options mapping: [None] and the empty
    mapping are false. *)
Definition config_truthy (c : option (gmap string value)) : bool :=
  match c with
  | Some d => bool_decide (d ≠ ∅)
  | None => false
  end.

(** [d.get(key, default)] *)
Definition dict_get (d : gmap string value) (key : string) (default : value) : value :=
  match d !! key with
  | Some v => v
  | None => default
  end.

(** [GPT2ModelPipe.__init__] (lines 146-166), with the keyword arguments
    of the call at lines 180-183. *)
Definition GPT2ModelPipe_init
    (activation_checkpointing_config : option (gmap string value))
    (model_config : LlamaConfig) (topology : Topology) (base_seed : Z)
    : M PipelineModule :=
  (if config_truthy activation_checkpointing_config then
     let d := default ∅ activation_checkpointing_config in
     tell [Call_configure
             (dict_get d "partition_activations" (VBool false))
             (dict_get d "contiguous_memory_optimization" (VBool false))
             (dict_get d "cpu_checkpointing" (VBool false))
             (dict_get d "number_checkpoints" VNone)
             (dict_get d "synchronize_checkpoint_boundary" (VBool false))
             (dict_get d "profile" (VBool false))]
   else mret tt);;
  let layers := stage_specs model_config activation_checkpointing_config in
  tell (map Call_LayerSpec layers);;
  tell [Call_PipelineModule];;
  mret (mkPipelineModule layers loss_fn topology base_seed).

(** [get_model]; [rank] is what [torch.distributed.get_rank()] answers. *)
Definition get_model (model_config : LlamaConfig)
    (activation_checkpointing_config : option (gmap string value))
    (rank : Z) : M PipelineModule :=
  args ← get_args;
  let pp := pipe_parallel_size args in
  let mp := model_parallel_size args in
  r ← lift (py_mod (world_size args) (pp * mp));
  py_assert (r =? 0);;
  dp ← lift (py_floordiv (world_size args) (pp * mp));
  tell [Call_Topology pp mp dp];;
  let topo := PipeModelDataParallelTopology pp mp dp in
  tell [Call_get_rank];;
  coord ← lift (get_coord topo rank);
  let stage_id := pipe coord in
  (if (0 <? stage_id) && (stage_id <? get_dim_pipe topo - 1)
   then put_args (set_seed (seed args + stage_id * mp) args)
   else mret tt);;
  args' ← get_args;
  GPT2ModelPipe_init activation_checkpointing_config model_config topo (seed args').

(** Running [get_model] on an [args] object, no call made yet. *)
Definition run_get_model (model_config : LlamaConfig) (args : Args)
    (activation_checkpointing_config : option (gmap string value))
    (rank : Z) : result PipelineModule * state :=
  get_model model_config activation_checkpointing_config rank (mkState args []).

End Stages.

(** ** A backend that computes shapes only

    Enough of torch to run the stages on concrete inputs: the transformer
    block hands its hidden states back in a one-element tuple, the linear
    projection and the embedding produce tensors of the right shape with
    no entries, the loss is a zero scalar. *)

Definition shape_linear (input : value) (weight : tensor) (bias : option tensor)
    : result value :=
  match input with
  | VTensor x =>
      if bool_decide (last (t_shape x) = t_shape weight !! 1%nat)
      then Ok (VTensor (mkTensor (removelast (t_shape x) ++ [hd 0 (t_shape weight)]) []))
      else Raise RuntimeError
  | _ => Raise TypeError
  end.

Definition shape_embedding (weight : tensor) (input : value) : result value :=
  match input with
  | VTensor ids => Ok (VTensor (mkTensor (t_shape ids ++ [List.last (t_shape weight) 0]) []))
  | _ => Raise TypeError
  end.

Definition shape_backend : Backend := {|
  DecoderState := LlamaConfig;
  Rng := unit;
  decoder_init := fun config => config;
  decoder_forward := fun _ _ hidden_states _ _ => Ok [hidden_states];
  embedding_forward := shape_embedding;
  rms_norm_forward := fun _ _ hidden_states => Ok hidden_states;
  F_linear := shape_linear;
  F_cross_entropy := fun _ _ => Ok (VTensor (mkTensor [] [SFloat pos_zero]));
  init_data := fun _ => []
|}.

(** ** What the kernels are relied on for *)

(** With its default flags [LlamaDecoderLayer.forward] returns the
    one-element tuple [(hidden_states,)]. *)
Definition decoder_returns_one_tuple (B : Backend) : Prop :=
  forall st rng h a p outs,
    decoder_forward st rng h a p = Ok outs -> exists o, outs = [o].

(** A transformer block keeps the shape of the hidden states. *)
Definition decoder_preserves_shape (B : Backend) : Prop :=
  forall st rng h a p o outs,
    decoder_forward st rng h a p = Ok (o :: outs) -> value_shape o = value_shape h.

(** [F.linear] maps [(..., in_features)] to [(..., out_features)], where
    [out_features] is the first dimension of the weight. *)
Definition linear_shape_contract (B : Backend) : Prop :=
  forall x w b y,
    F_linear (VTensor x) w b = Ok y ->
    exists t, y = VTensor t /\ t_shape t = removelast (t_shape x) ++ [hd 0 (t_shape w)].

(** The seed lines 177-178 leave in [args.seed]. *)
Definition assigned_seed (args : Args) (stage_id : Z) : Z :=
  if (0 <? stage_id) && (stage_id <? pipe_parallel_size args - 1)
  then seed args + stage_id * model_parallel_size args
  else seed args.

(** The data-parallel degree of lines 170-171. *)
Definition data_parallel_size (args : Args) : Z :=
  world_size args / (pipe_parallel_size args * model_parallel_size args).

(** The calls of [GPT2ModelPipe.__init__]. *)
Definition init_calls (model_config : LlamaConfig)
    (c : option (gmap string value)) : list call :=
  (if config_truthy c then
     let d := default ∅ c in
     [Call_configure
        (dict_get d "partition_activations" (VBool false))
        (dict_get d "contiguous_memory_optimization" (VBool false))
        (dict_get d "cpu_checkpointing" (VBool false))
        (dict_get d "number_checkpoints" VNone)
        (dict_get d "synchronize_checkpoint_boundary" (VBool false))
        (dict_get d "profile" (VBool false))]
   else [])
  ++ map Call_LayerSpec (stage_specs model_config c) ++ [Call_PipelineModule].

Definition is_configure (c : call) : bool :=
  match c with Call_configure _ _ _ _ _ _ => true | _ => false end.


(** The option names [GPT2ModelPipe.__init__] reads (lines 150-155). *)
Definition option_keys : list string :=
  ["partition_activations"; "contiguous_memory_optimization"; "cpu_checkpointing";
   "number_checkpoints"; "synchronize_checkpoint_boundary"; "profile"].

(** Feeding a tuple through transformer-block stages one after the
    other, each with the random state it runs in: the output tuple of one
    is the argument tuple of the next. *)
Definition run_blocks {B : Backend} (blocks : list (module * Rng))
    (args : list value) : result (list value) :=
  foldl (fun acc blk => acc ≫= ParallelTransformerLayerPipe_forward blk.1 blk.2)
        (Ok args) blocks.


(** The shape-only backend with a block that also returns a second
    output, as a block asked for its cache does. *)
Definition two_output_backend : Backend := {|
  DecoderState := LlamaConfig;
  Rng := unit;
  decoder_init := fun config => config;
  decoder_forward := fun _ _ hidden_states _ _ => Ok [hidden_states; VNone];
  embedding_forward := shape_embedding;
  rms_norm_forward := fun _ _ hidden_states => Ok hidden_states;
  F_linear := shape_linear;
  F_cross_entropy := fun _ _ => Ok (VTensor (mkTensor [] [SFloat pos_zero]));
  init_data := fun _ => []
|}.

(** ** Concrete inputs *)

(** A model of four blocks, vocabulary 10 and hidden size 2, on eight
    workers: four pipeline stages, model-parallel degree two. *)
Definition cfg4 : LlamaConfig := mkConfig 10 2 4 (S754_finite false 1 (-20)).
Definition args4 : Args := mkArgs 4 2 8 10.

Definition h0 : value :=
  VTensor (mkTensor [1; 2; 2]
             [SFloat pos_zero; SFloat one_f32; SFloat one_f32; SFloat pos_zero]).
Definition p0 : value := VTensor (mkTensor [1; 2] [SLong 0; SLong 1]).
Definition m0 : value :=
  VTensor (mkTensor [1; 1; 2; 2] [SBool false; SBool true; SBool false; SBool false]).

Definition base_seed_of (r : result PipelineModule * state) : option Z :=
  match fst r with
  | Ok pm => Some (pm_base_seed pm)
  | Raise _ => None
  end.

(** The block of a stage built from [cfg4]. *)
Definition block0 : payload (B:=shape_backend) := PDecoder (B:=shape_backend) cfg4.

(** The output projection built from [cfg4]. *)
Definition lm_stage : module (B:=shape_backend) :=
  mkModule LMLayerPipe ∅ (PLinear (mkTensor [11; 2] []) None).

(** What [get_model] returns and leaves behind on [args4] with the empty
    options mapping, for the worker of rank 2. *)
Definition pm_empty_options : PipelineModule :=
  mkPipelineModule (stage_specs cfg4 (Some ∅)) (loss_fn (B:=shape_backend))
    (PipeModelDataParallelTopology 4 2 1) 12.

Definition st_empty_options : state :=
  mkState (mkArgs 4 2 8 12)
    (Call_Topology 4 2 1 :: Call_get_rank
     :: map Call_LayerSpec (stage_specs cfg4 (Some ∅)) ++ [Call_PipelineModule]).

Definition options_a : gmap string value :=
  <["partition_activations" := VBool true]> ∅.

Definition options_b : gmap string value :=
  <["verbose" := VBool true]> (<["partition_activations" := VBool true]> ∅).

Definition emb0 : module (B:=shape_backend) :=
  mkModule EmbeddingPipe ∅ (PEmbedding (mkTensor [11; 2] [])).

Definition norm0 : module (B:=shape_backend) :=
  mkModule LayerNormPipe ∅
    (PRMSNorm (mkTensor [2] [SFloat one_f32; SFloat one_f32]) (rms_norm_eps cfg4)).

Definition ids0 : value := VTensor (mkTensor [1; 2] [SLong 3; SLong 7]).

(** * Properties *)

Section Properties.
Context {B : Backend}.

Lemma get_model_ok model_config args c rank coord :
  pipe_parallel_size args * model_parallel_size args <> 0 ->
  world_size args mod (pipe_parallel_size args * model_parallel_size args) = 0 ->
  get_coord (PipeModelDataParallelTopology (pipe_parallel_size args)
               (model_parallel_size args) (data_parallel_size args)) rank = Ok coord ->
  run_get_model model_config args c rank =
    (Ok (mkPipelineModule (stage_specs model_config c) loss_fn
           (PipeModelDataParallelTopology (pipe_parallel_size args)
              (model_parallel_size args) (data_parallel_size args))
           (assigned_seed args (pipe coord))),
     mkState (set_seed (assigned_seed args (pipe coord)) args)
       (Call_Topology (pipe_parallel_size args) (model_parallel_size args)
          (data_parallel_size args)
        :: Call_get_rank :: init_calls model_config c)).
Proof.
  intros Hnz Hmod Hcoord.
  unfold run_get_model, get_model, GPT2ModelPipe_init, py_mod, py_floordiv.
  apply Z.eqb_neq in Hnz.
  unfold mbind, M_bind, get_args, lift, py_assert, tell, put_args, mret, M_ret; simpl.
  rewrite Hnz, Hmod. simpl.
  fold (data_parallel_size args). rewrite Hcoord.
  unfold assigned_seed, get_dim_pipe, init_calls. simpl.
  destruct ((0 <? pipe coord) && (pipe coord <? pipe_parallel_size args - 1)) eqn:Hint;
    destruct (config_truthy c) eqn:Hc; simpl; destruct args; reflexivity.
Qed.

Lemma get_model_not_divisible model_config args c rank :
  pipe_parallel_size args * model_parallel_size args = 0 \/
  world_size args mod (pipe_parallel_size args * model_parallel_size args) <> 0 ->
  exists e, (e = ZeroDivisionError \/ e = AssertionError) /\
    run_get_model model_config args c rank = (Raise e, mkState args []).
Proof.
  intros Hbad.
  unfold run_get_model, get_model, py_mod.
  unfold mbind, M_bind, get_args, lift, py_assert, mret, M_ret; simpl.
  destruct (pipe_parallel_size args * model_parallel_size args =? 0) eqn:Hz.
  - exists ZeroDivisionError. split; [by left | reflexivity].
  - apply Z.eqb_neq in Hz. destruct Hbad as [H0 | Hmod]; [contradiction |].
    apply Z.eqb_neq in Hmod. simpl. rewrite Hmod. simpl.
    exists AssertionError. split; [by right | reflexivity].
Qed.

Lemma length_range n : length (range n) = Z.to_nat n.
Proof. unfold range. apply length_seqZ. Qed.

Lemma stage_specs_replicate model_config c :
  stage_specs model_config c =
    Spec_EmbeddingPipe (vocab_size model_config + 1) (hidden_size model_config)
    :: replicate (Z.to_nat (num_hidden_layers model_config))
         (Spec_ParallelTransformerLayerPipe model_config (is_not_None c))
    ++ [Spec_LayerNormPipe (hidden_size model_config) (rms_norm_eps model_config);
        Spec_LMLayerPipe (hidden_size model_config) (vocab_size model_config + 1) false].
Proof.
  unfold stage_specs. f_equal. f_equal.
  rewrite <- length_range.
  induction (range (num_hidden_layers model_config)) as [| z l IH]; simpl;
    [reflexivity | by rewrite IH].
Qed.

Lemma init_calls_configure model_config c :
  existsb is_configure (init_calls model_config c) = config_truthy c.
Proof.
  unfold init_calls.
  assert (Hno : forall l, existsb is_configure (map Call_LayerSpec l ++ [Call_PipelineModule]) = false).
  { induction l as [| x l IH]; simpl; [reflexivity | exact IH]. }
  destruct (config_truthy c); simpl; [reflexivity | apply Hno].
Qed.

Lemma get_model_rank_missing model_config args c rank e :
  pipe_parallel_size args * model_parallel_size args <> 0 ->
  world_size args mod (pipe_parallel_size args * model_parallel_size args) = 0 ->
  get_coord (PipeModelDataParallelTopology (pipe_parallel_size args)
               (model_parallel_size args) (data_parallel_size args)) rank = Raise e ->
  run_get_model model_config args c rank =
    (Raise e,
     mkState args
       [Call_Topology (pipe_parallel_size args) (model_parallel_size args)
          (data_parallel_size args); Call_get_rank]).
Proof.
  intros Hnz Hmod Hcoord.
  unfold run_get_model, get_model, py_mod, py_floordiv.
  apply Z.eqb_neq in Hnz.
  unfold mbind, M_bind, get_args, lift, py_assert, tell, mret, M_ret; simpl.
  rewrite Hnz, Hmod. simpl.
  fold (data_parallel_size args). rewrite Hcoord. reflexivity.
Qed.

Lemma get_model_inv model_config args c rank pm st :
  run_get_model model_config args c rank = (Ok pm, st) ->
  exists coord,
    get_coord (PipeModelDataParallelTopology (pipe_parallel_size args)
                 (model_parallel_size args) (data_parallel_size args)) rank = Ok coord /\
    pm = mkPipelineModule (stage_specs model_config c) loss_fn
           (PipeModelDataParallelTopology (pipe_parallel_size args)
              (model_parallel_size args) (data_parallel_size args))
           (assigned_seed args (pipe coord)) /\
    st = mkState (set_seed (assigned_seed args (pipe coord)) args)
           (Call_Topology (pipe_parallel_size args) (model_parallel_size args)
              (data_parallel_size args)
            :: Call_get_rank :: init_calls model_config c).
Proof.
  intros Hrun.
  destruct (Z.eq_dec (pipe_parallel_size args * model_parallel_size args) 0) as [Hz | Hnz].
  { destruct (get_model_not_divisible model_config args c rank) as (e & _ & He);
      [by left | congruence]. }
  destruct (Z.eq_dec
    (world_size args mod (pipe_parallel_size args * model_parallel_size args)) 0)
    as [Hmod | Hmod].
  2: { destruct (get_model_not_divisible model_config args c rank) as (e & _ & He);
         [by right | congruence]. }
  destruct (get_coord (PipeModelDataParallelTopology (pipe_parallel_size args)
              (model_parallel_size args) (data_parallel_size args)) rank)
    as [coord | e] eqn:Hcoord.
  - exists coord. split; [reflexivity |].
    rewrite (get_model_ok _ _ _ _ _ Hnz Hmod Hcoord) in Hrun.
    by inversion Hrun.
  - rewrite (get_model_rank_missing _ _ _ _ _ Hnz Hmod Hcoord) in Hrun. discriminate.
Qed.

(** C1 (seed-offset law).  When [get_model] builds the model for a worker
    whose pipeline-stage coordinate is [pipe coord], the seed it hands to
    the pipeline engine, which is also what it leaves in [args.seed], is
    the base seed if the stage is the first or the last one, and
    [base_seed + stage_index * model_parallel_size] if the stage is
    strictly interior. *)
Theorem seed_offset_law model_config args c rank coord :
  pipe_parallel_size args * model_parallel_size args <> 0 ->
  world_size args mod (pipe_parallel_size args * model_parallel_size args) = 0 ->
  get_coord (PipeModelDataParallelTopology (pipe_parallel_size args)
               (model_parallel_size args) (data_parallel_size args)) rank = Ok coord ->
  exists pm st,
    run_get_model model_config args c rank = (Ok pm, st) /\
    seed (st_args st) = pm_base_seed pm /\
    (pipe coord = 0 \/ pipe coord = pipe_parallel_size args - 1 ->
       pm_base_seed pm = seed args) /\
    (0 < pipe coord < pipe_parallel_size args - 1 ->
       pm_base_seed pm = seed args + pipe coord * model_parallel_size args).
Proof.
  intros Hnz Hmod Hcoord.
  eexists _, _. split; [exact (get_model_ok _ _ _ _ _ Hnz Hmod Hcoord) |].
  simpl. unfold assigned_seed. split; [reflexivity |]. split.
  - intros Hedge.
    destruct ((0 <? pipe coord) && (pipe coord <? pipe_parallel_size args - 1)) eqn:Hint;
      [| reflexivity].
    apply andb_prop in Hint as [H1 H2]. lia.
  - intros [H1 H2].
    apply Z.ltb_lt in H1, H2. by rewrite H1, H2.
Qed.

(** C2, as the code has it.  The list of stage specifications is one
    embedding stage, then one transformer-block stage per hidden layer,
    then the normalization stage and the output projection: its length is
    [3 + num_hidden_layers] (a negative count builds no block). *)
Theorem stage_specs_length model_config c :
  stage_specs model_config c =
    Spec_EmbeddingPipe (vocab_size model_config + 1) (hidden_size model_config)
    :: replicate (Z.to_nat (num_hidden_layers model_config))
         (Spec_ParallelTransformerLayerPipe model_config (is_not_None c))
    ++ [Spec_LayerNormPipe (hidden_size model_config) (rms_norm_eps model_config);
        Spec_LMLayerPipe (hidden_size model_config) (vocab_size model_config + 1) false]
  /\ length (stage_specs model_config c)
     = (3 + Z.to_nat (num_hidden_layers model_config))%nat.
Proof.
  split; [apply stage_specs_replicate |].
  rewrite stage_specs_replicate. simpl.
  rewrite length_app, length_replicate. simpl. lia.
Qed.

(** C9 (topology check).  If [world_size] is not a multiple of
    [pipe_parallel_size * model_parallel_size] (a zero product included),
    [get_model] raises with no call made: no topology, no stage
    specification.  If it is a multiple, the first call builds the topology
    with data-parallel degree
    [world_size / (pipe_parallel_size * model_parallel_size)], and for a
    rank of that topology [get_model] returns the model on it. *)
Theorem topology_divisibility model_config args c rank :
  (pipe_parallel_size args * model_parallel_size args = 0 \/
   world_size args mod (pipe_parallel_size args * model_parallel_size args) <> 0 ->
   exists e, (e = ZeroDivisionError \/ e = AssertionError) /\
     run_get_model model_config args c rank = (Raise e, mkState args []))
  /\
  (pipe_parallel_size args * model_parallel_size args <> 0 ->
   world_size args mod (pipe_parallel_size args * model_parallel_size args) = 0 ->
   exists r st rest,
     run_get_model model_config args c rank = (r, st) /\
     st_calls st =
       Call_Topology (pipe_parallel_size args) (model_parallel_size args)
         (world_size args / (pipe_parallel_size args * model_parallel_size args))
       :: rest /\
     forall coord,
       get_coord (PipeModelDataParallelTopology (pipe_parallel_size args)
                    (model_parallel_size args) (data_parallel_size args)) rank = Ok coord ->
       exists pm, r = Ok pm /\
         num_pp (pm_topology pm) = pipe_parallel_size args /\
         num_mp (pm_topology pm) = model_parallel_size args /\
         num_dp (pm_topology pm) =
           world_size args / (pipe_parallel_size args * model_parallel_size args)).
Proof.
  split; [apply get_model_not_divisible |].
  intros Hnz Hmod.
  destruct (get_coord (PipeModelDataParallelTopology (pipe_parallel_size args)
              (model_parallel_size args) (data_parallel_size args)) rank)
    as [coord | e] eqn:Hcoord.
  - eexists _, _, _. split; [exact (get_model_ok _ _ _ _ _ Hnz Hmod Hcoord) |].
    split; [reflexivity |].
    intros coord' _. eexists. split; [reflexivity |]. by simpl.
  - eexists _, _, _. split; [exact (get_model_rank_missing _ _ _ _ _ Hnz Hmod Hcoord) |].
    split; [reflexivity |]. intros coord' Hc'. discriminate.
Qed.

(** C10 (the two checkpointing tests).  In a run of [get_model] that
    returns the model, the runtime's configure call is made exactly when
    the options mapping is truthy, and every transformer-block
    specification carries the flag "the options are not None"; there are
    [num_hidden_layers] of them.  So the empty mapping enables
    checkpointing in every block without a configure call, and [None]
    disables both. *)
Theorem checkpointing_gates model_config args c rank pm st :
  run_get_model model_config args c rank = (Ok pm, st) ->
  existsb is_configure (st_calls st) = config_truthy c /\
  (forall config ac,
     Spec_ParallelTransformerLayerPipe config ac ∈ pm_layers pm ->
     config = model_config /\ ac = is_not_None c) /\
  pm_layers pm !! 1%nat =
    (if 0 <? num_hidden_layers model_config
     then Some (Spec_ParallelTransformerLayerPipe model_config (is_not_None c))
     else Some (Spec_LayerNormPipe (hidden_size model_config) (rms_norm_eps model_config))) /\
  (c = Some ∅ ->
     existsb is_configure (st_calls st) = false /\
     forall config ac,
       Spec_ParallelTransformerLayerPipe config ac ∈ pm_layers pm -> ac = true) /\
  (c = None ->
     existsb is_configure (st_calls st) = false /\
     forall config ac,
       Spec_ParallelTransformerLayerPipe config ac ∈ pm_layers pm -> ac = false).
Proof.
  intros Hrun.
  destruct (get_model_inv _ _ _ _ _ _ Hrun) as (coord & _ & -> & ->).
  cbn [pm_layers st_calls existsb is_configure orb].
  assert (Hflag : forall config ac,
            Spec_ParallelTransformerLayerPipe config ac ∈ stage_specs model_config c ->
            config = model_config /\ ac = is_not_None c).
  { intros config ac Hin. rewrite stage_specs_replicate in Hin.
    apply elem_of_cons in Hin as [Heq | Hin]; [discriminate |].
    apply elem_of_app in Hin as [Hin | Hin].
    - apply elem_of_replicate in Hin as [Heq _]. by inversion Heq.
    - apply elem_of_cons in Hin as [Heq | Hin]; [discriminate |].
      apply elem_of_cons in Hin as [Heq | Hin]; [discriminate |].
      by apply elem_of_nil in Hin. }
  split; [apply init_calls_configure |]. split; [exact Hflag |]. split; [| split].
  - rewrite stage_specs_replicate.
    destruct (0 <? num_hidden_layers model_config) eqn:Hn.
    + apply Z.ltb_lt in Hn.
      destruct (Z.to_nat (num_hidden_layers model_config)) eqn:Hk; [lia | done].
    + apply Z.ltb_ge in Hn.
      replace (Z.to_nat (num_hidden_layers model_config)) with 0%nat by lia.
      done.
  - intros ->. split.
    + rewrite init_calls_configure. cbn [config_truthy].
      apply bool_decide_eq_false_2. intros Hne. by apply Hne.
    + intros config ac Hin. by destruct (Hflag _ _ Hin) as [_ ->].
  - intros ->. split.
    + by rewrite init_calls_configure.
    + intros config ac Hin. by destruct (Hflag _ _ Hin) as [_ ->].
Qed.

End Properties.

(** ** The mask-to-bias conversion *)

Lemma float_to_long_in_int64 f : in_int64 (float_to_long f) = true.
Proof.
  unfold float_to_long.
  destruct (SFtrunc f) as [z |]; [| reflexivity].
  destruct (in_int64 z) eqn:Hz; [exact Hz | reflexivity].
Qed.

(** C4, as the code has it.  For a boolean mask the bias is an int64
    tensor of the same shape: a [True] entry becomes the integer that the
    conversion to int64 makes of negative infinity, the most negative
    int64, and a [False] entry becomes exactly 0.  Whatever the mask
    tensor holds, every entry of the bias that comes from the comparison
    is an int64, never an infinity. *)
Theorem mask_to_bias_entries (sh : list Z) (bs : list bool) :
  mask_to_bias (VTensor (mkTensor sh (map SBool bs)))
  = Ok (mkTensor sh (map (fun b : bool => SLong (if b then int64_min else 0)) bs))
  /\ forall m : tensor, exists t,
       mask_to_bias (VTensor m) = Ok t /\ t_shape t = t_shape m /\
       Forall (fun s => exists z, s = SLong z /\ in_int64 z = true) (t_data t).
Proof.
  split.
  - unfold mask_to_bias, tensor_long, where_neg_inf_0, tensor_eq_True, tmap.
    cbn [t_shape t_data]. do 2 f_equal.
    rewrite !map_map. apply map_ext. by intros [].
  - intros m. eexists. split; [reflexivity |]. split; [reflexivity |].
    unfold tensor_long, where_neg_inf_0, tensor_eq_True, tmap. cbn [t_shape t_data].
    rewrite !map_map. apply Forall_forall. intros s Hs.
    apply list_elem_of_In, in_map_iff in Hs as (x & <- & _).
    eexists. split; [reflexivity | apply float_to_long_in_int64].
Qed.

(** C4, as stated, fails: the bias of a masked entry is the integer
    -2^63, which is not negative infinity. *)
Lemma masked_entry_is_not_neg_inf :
  mask_to_bias (VTensor (mkTensor [2] [SBool true; SBool false]))
  = Ok (mkTensor [2] [SLong (-9223372036854775808); SLong 0])
  /\ SLong (-9223372036854775808) <> SFloat neg_inf.
Proof. split; [reflexivity | discriminate]. Qed.

(** ** The stages *)

Section StageProperties.
Context {B : Backend}.

Lemma getattr_insert d p c name v :
  getattr (mkModule c (<[name := v]> d) p) name = Ok v.
Proof. unfold getattr. cbn [m_dict]. by rewrite lookup_insert_eq. Qed.

(** C3 (checkpointing does not change the output).  Two transformer-block
    stages with the same parameters, one with activation checkpointing
    and one without, give the same result on every argument tuple and
    random state, the tuple's structure included, as long as the block's
    own forward returns its one-element tuple. *)
Theorem checkpointed_forward_same (Hone : decoder_returns_one_tuple B)
    (d : gmap string value) (p : payload) (rng : Rng) (args : list value) :
  forward (mkModule ParallelTransformerLayerPipe
             (<["activation_checkpointing" := VBool true]> d) p) rng args
  = forward (mkModule ParallelTransformerLayerPipe
               (<["activation_checkpointing" := VBool false]> d) p) rng args.
Proof.
  unfold forward. cbn [m_class]. f_equal.
  unfold ParallelTransformerLayerPipe_forward, _ckpt_forward.
  rewrite !getattr_insert. cbn.
  destruct args as [| h [| pos [| m [| x args]]]]; try reflexivity.
  destruct (mask_to_bias m) as [bias | e]; [| reflexivity]. cbn.
  unfold checkpoint, create_custom_forward, LlamaDecoderLayer_forward. cbn.
  destruct p as [w | st | w eps | w b]; try reflexivity.
  destruct (decoder_forward st rng h (VTensor bias) pos) as [outs | e] eqn:Hfw;
    [| reflexivity].
  destruct (Hone _ _ _ _ _ _ Hfw) as [o ->]. reflexivity.
Qed.

Lemma stage_forward_inv (self : module) (rng : Rng) (h p m : value) out :
  ParallelTransformerLayerPipe_forward self rng [h; p; m] = Ok out ->
  exists h', out = [h'; p; m] /\
    (decoder_returns_one_tuple B -> decoder_preserves_shape B ->
     value_shape h' = value_shape h).
Proof.
  unfold ParallelTransformerLayerPipe_forward, _ckpt_forward.
  destruct (getattr self "activation_checkpointing") as [flag | e]; [| discriminate].
  cbn. destruct (truthy flag) as [on | e]; [| discriminate]. cbn.
  destruct (mask_to_bias m) as [bias | e]; [| by destruct on].
  cbn. unfold checkpoint, create_custom_forward, LlamaDecoderLayer_forward. cbn.
  destruct (m_payload self) as [w | st | w eps | w b]; try (by destruct on).
  destruct (decoder_forward st rng h (VTensor bias) p) as [outs | e] eqn:Hfw;
    [| by destruct on].
  cbn. destruct on.
  - intros Hr.
    destruct outs as [| o [| o' outs]]; inversion Hr; subst out;
      eexists; (split; [reflexivity |]); intros Hone Hshape.
    + by destruct (Hone _ _ _ _ _ _ Hfw).
    + exact (Hshape _ _ _ _ _ _ _ Hfw).
    + by destruct (Hone _ _ _ _ _ _ Hfw).
  - intros Hr. destruct outs as [| o outs]; inversion Hr; subst out.
    eexists. split; [reflexivity |]. intros _ Hshape.
    exact (Hshape _ _ _ _ _ _ _ Hfw).
Qed.

Lemma stage_forward_ok (self : module) (rng : Rng) (h p m : value) st b bias o :
  m_payload self = PDecoder st ->
  m_dict self !! "activation_checkpointing" = Some (VBool b) ->
  mask_to_bias m = Ok bias ->
  decoder_forward st rng h (VTensor bias) p = Ok [o] ->
  ParallelTransformerLayerPipe_forward self rng [h; p; m] = Ok [o; p; m].
Proof.
  intros Hp Hflag Hbias Hfw.
  unfold ParallelTransformerLayerPipe_forward, _ckpt_forward, getattr.
  rewrite Hflag. cbn. rewrite Hbias. cbn.
  unfold checkpoint, create_custom_forward, LlamaDecoderLayer_forward.
  rewrite Hp. cbn. rewrite Hfw. by destruct b.
Qed.

(** C5 (what a transformer-block stage passes on).  Whatever the stage
    returns for [(hidden_states, position_ids, mask)] is a tuple of three
    elements whose second and third are the given position ids and the
    given mask themselves; and when the block's forward returns its
    one-element tuple the stage does return, with the block's output first,
    which has the shape of the input when the block keeps shapes. *)
Theorem transformer_stage_frame (self : module) (rng : Rng) (h p m : value) :
  (forall out,
     ParallelTransformerLayerPipe_forward self rng [h; p; m] = Ok out ->
     exists h', out = [h'; p; m] /\
       (decoder_returns_one_tuple B -> decoder_preserves_shape B ->
        value_shape h' = value_shape h))
  /\
  (forall st b bias o,
     m_payload self = PDecoder st ->
     m_dict self !! "activation_checkpointing" = Some (VBool b) ->
     mask_to_bias m = Ok bias ->
     decoder_forward st rng h (VTensor bias) p = Ok [o] ->
     ParallelTransformerLayerPipe_forward self rng [h; p; m] = Ok [o; p; m]).
Proof.
  split.
  - intros out. apply stage_forward_inv.
  - intros st b bias o. apply stage_forward_ok.
Qed.

Lemma retagged_forward_needs_flag (layer : module) (flag : bool) rng args :
  m_dict layer !! "activation_checkpointing" = None ->
  forward (_wrap_decoder_layer layer flag) rng args = Raise AttributeError.
Proof.
  intros Hnone. unfold forward, _wrap_decoder_layer, set_class. cbn [m_class].
  unfold ParallelTransformerLayerPipe_forward, getattr. cbn [m_dict].
  by rewrite Hnone.
Qed.

(** C6, on the code.  A library layer re-tagged by [_wrap_decoder_layer]
    never went through the stage's constructor, so it has no
    [activation_checkpointing] attribute and its forward raises
    [AttributeError] on every argument tuple, whatever flag the wrapper
    was given. *)
Theorem retagged_decoder_forward_raises (config : LlamaConfig) (flag : bool)
    (rng : Rng) (args : list value) :
  forward (_wrap_decoder_layer (LlamaDecoderLayer_init config) flag) rng args
  = Raise AttributeError.
Proof.
  apply retagged_forward_needs_flag.
  unfold LlamaDecoderLayer_init. cbn [m_dict]. apply lookup_empty.
Qed.

(** The stage built by the constructor runs the block on the same
    arguments. *)
Lemma fresh_decoder_forward (config : LlamaConfig) (flag : bool) rng h p t o :
  decoder_forward (decoder_init config) rng h
    (VTensor (tensor_long (where_neg_inf_0 (tensor_eq_True t)))) p = Ok [o] ->
  forward (ParallelTransformerLayerPipe_init config flag) rng [h; p; VTensor t]
  = Ok (VTuple [o; p; VTensor t]).
Proof.
  intros Hfw. unfold forward. cbn [m_class ParallelTransformerLayerPipe_init].
  rewrite (stage_forward_ok _ rng h p (VTensor t) (decoder_init config) flag
             (tensor_long (where_neg_inf_0 (tensor_eq_True t))) o);
    [reflexivity | reflexivity | | reflexivity | exact Hfw].
  cbn [m_dict]. apply lookup_insert_eq.
Qed.

Lemma last_stage_spec model_config c :
  last (stage_specs model_config c)
  = Some (Spec_LMLayerPipe (hidden_size model_config) (vocab_size model_config + 1) false).
Proof.
  unfold stage_specs. rewrite app_comm_cons.
  by rewrite last_app.
Qed.

(** C7, as the code has it.  The last stage specification is a linear
    layer from [hidden_size] to [vocab_size + 1] built without bias; it is
    built whenever both sizes are non-negative; the stage sends
    [(hidden_states,)] to the one-element tuple of
    [F.linear(hidden_states, weight, None)], with a weight of shape
    [(vocab_size + 1, hidden_size)]; so the last dimension of the logits
    is [vocab_size + 1]. *)
Theorem lm_head_projection (model_config : LlamaConfig)
    (c : option (gmap string value)) :
  last (stage_specs model_config c)
  = Some (Spec_LMLayerPipe (hidden_size model_config) (vocab_size model_config + 1) false)
  /\
  (0 <= hidden_size model_config -> 0 <= vocab_size model_config + 1 ->
   exists stage,
     build (Spec_LMLayerPipe (hidden_size model_config)
              (vocab_size model_config + 1) false) = Ok stage)
  /\
  (forall stage,
     build (Spec_LMLayerPipe (hidden_size model_config)
              (vocab_size model_config + 1) false) = Ok stage ->
     exists weight,
       m_class stage = LMLayerPipe /\
       m_payload stage = PLinear weight None /\
       t_shape weight = [vocab_size model_config + 1; hidden_size model_config] /\
       (forall rng hidden_states,
          forward stage rng [hidden_states]
          = (fun logits => VTuple [logits]) <$> F_linear hidden_states weight None) /\
       (linear_shape_contract B ->
        forall rng h out,
          forward stage rng [VTensor h] = Ok out ->
          exists logits,
            out = VTuple [VTensor logits] /\
            last (t_shape logits) = Some (vocab_size model_config + 1))).
Proof.
  split; [apply last_stage_spec |]. split.
  - intros Hh Hv. unfold build, new_parameter. cbn [forallb].
    apply Z.leb_le in Hh, Hv. rewrite Hh, Hv. cbn. by eexists.
  - intros stage Hbuild. unfold build, new_parameter in Hbuild. cbn [forallb] in Hbuild.
    destruct (0 <=? vocab_size model_config + 1); [| discriminate].
    destruct (0 <=? hidden_size model_config); [| discriminate].
    cbn in Hbuild. inversion Hbuild; subst stage. clear Hbuild.
    eexists. split; [reflexivity |]. split; [reflexivity |]. split; [reflexivity |].
    assert (Hfw : forall (rng : Rng) hidden_states,
      forward (mkModule LMLayerPipe ∅
                 (PLinear (mkTensor [vocab_size model_config + 1; hidden_size model_config]
                             (init_data [vocab_size model_config + 1;
                                         hidden_size model_config])) None))
              rng [hidden_states]
      = (fun logits => VTuple [logits])
          <$> F_linear hidden_states
                (mkTensor [vocab_size model_config + 1; hidden_size model_config]
                   (init_data [vocab_size model_config + 1; hidden_size model_config]))
                None).
    { intros rng hs. unfold forward, LMLayerPipe_forward, Linear_forward. cbn.
      by destruct (F_linear hs _ None). }
    split; [exact Hfw |].
    intros Hlin rng h out Hout. rewrite Hfw in Hout.
    destruct (F_linear (VTensor h) _ None) as [y | e] eqn:Hy; [| discriminate].
    cbn in Hout. inversion Hout; subst out.
    destruct (Hlin _ _ _ _ Hy) as (t & -> & Hsh).
    exists t. split; [reflexivity |]. rewrite Hsh. cbn [hd t_shape].
    apply last_snoc.
Qed.

End StageProperties.

(** ** The loss *)

(** X1.  On logits of shape [(batch, seq, vocab)] and labels of shape
    [(batch, seq)], [loss_fn] gives [F.cross_entropy] the logits as
    [(batch * seq, vocab)] and the labels as [(batch * seq)], and returns
    the kernel's result as it is. *)
Lemma loss_fn_flattens {B : Backend} (b s v : Z) (dl dt : list scalar) :
  0 < v ->
  loss_fn [VTensor (mkTensor [b; s; v] dl)] (VTensor (mkTensor [b; s] dt))
  = F_cross_entropy (mkTensor [b * s; v] dl) (mkTensor [b * s] dt).
Proof.
  intros Hv. unfold loss_fn, last_dim, view_rows, view_flat, numel.
  cbn [t_shape t_data last fold_right mbind result_bind].
  replace (b * (s * (v * 1))) with (b * s * v) by lia.
  replace (b * (s * 1)) with (b * s) by lia.
  rewrite Z.mod_mul, Z.div_mul by lia.
  destruct (v <=? 0) eqn:Hle; [apply Z.leb_le in Hle; lia |].
  reflexivity.
Qed.

(** ** The eager list *)

(** X2.  [_to_layers] keeps the order embedding, blocks, normalization,
    projection: as many stages as the specification list of a model with
    that many blocks, of the same classes position by position. *)
Lemma to_layers_classes {B : Backend} (lm : lm_model) (flag : bool) :
  map m_class (_to_layers lm flag)
  = EmbeddingPipe
    :: replicate (length (layers lm)) ParallelTransformerLayerPipe
    ++ [LayerNormPipe; LMLayerPipe].
Proof.
  unfold _to_layers. cbn [map m_class _wrap_embed_layer set_class].
  f_equal. rewrite map_app. f_equal.
  induction (layers lm) as [| layer l IH]; [reflexivity |].
  cbn [map length replicate]. by rewrite IH.
Qed.

(** * Concrete runs *)

Lemma shape_backend_one_tuple : decoder_returns_one_tuple shape_backend.
Proof. intros st rng h a p outs Hfw. inversion Hfw. by eexists. Qed.

Lemma shape_backend_preserves_shape : decoder_preserves_shape shape_backend.
Proof. intros st rng h a p o outs Hfw. by inversion Hfw. Qed.

Lemma shape_backend_linear : linear_shape_contract shape_backend.
Proof.
  intros x w b y Hy. cbn in Hy. unfold shape_linear in Hy.
  destruct (bool_decide _); inversion Hy. by eexists.
Qed.

(** The specification's example: base seed 10 on four stages of
    model-parallel degree 2 gives 10, 12, 14, 10. *)
Example seed_example :
  map (fun rank => base_seed_of (run_get_model (B:=shape_backend) cfg4 args4 None rank))
      [0; 2; 4; 6]
  = [Some 10; Some 12; Some 14; Some 10].
Proof. reflexivity. Qed.

Example pipe_coordinates :
  map (fun rank => pipe <$> get_coord (PipeModelDataParallelTopology 4 2 1) rank)
      [0; 1; 2; 7; 8; -1]
  = [Ok 0; Ok 0; Ok 1; Ok 3; Raise ValueError; Raise ValueError].
Proof. reflexivity. Qed.

(** C1 on the specification's example: the worker of rank 2 is on stage
    1 of 4, an interior stage, and gets seed 10 + 1 * 2. *)
Lemma seed_offset_law_witness :
  exists pm st,
    run_get_model (B:=shape_backend) cfg4 args4 None 2 = (Ok pm, st) /\
    seed (st_args st) = pm_base_seed pm /\
    (1 = 0 \/ 1 = 4 - 1 -> pm_base_seed pm = 10) /\
    (0 < 1 < 4 - 1 -> pm_base_seed pm = 10 + 1 * 2).
Proof.
  apply (seed_offset_law (B:=shape_backend) cfg4 args4 None 2 (mkCoord 1 0 0));
    [cbn; lia | reflexivity | reflexivity].
Defined.

(** C2, as stated, fails: four hidden layers give seven stages, not
    [2 + 4]. *)
Lemma stage_specs_length_is_not_2_plus_n :
  length (stage_specs cfg4 None) = 7%nat /\
  length (stage_specs cfg4 None) <> (2 + Z.to_nat (num_hidden_layers cfg4))%nat.
Proof. split; [reflexivity | vm_compute; lia]. Qed.

(** C3 on a concrete stage and input, with the shape-only backend. *)
Lemma checkpointed_forward_same_witness :
  forward (B:=shape_backend)
    (mkModule ParallelTransformerLayerPipe
       (<["activation_checkpointing" := VBool true]> ∅) block0) tt [h0; p0; m0]
  = forward (B:=shape_backend)
      (mkModule ParallelTransformerLayerPipe
         (<["activation_checkpointing" := VBool false]> ∅) block0) tt [h0; p0; m0].
Proof.
  exact (checkpointed_forward_same (B:=shape_backend) shape_backend_one_tuple
           ∅ block0 tt [h0; p0; m0]).
Defined.

Example checkpointed_forward_run :
  forward (B:=shape_backend) (ParallelTransformerLayerPipe_init cfg4 true) tt [h0; p0; m0]
  = Ok (VTuple [h0; p0; m0]).
Proof. reflexivity. Qed.

(** C5 on a concrete stage and input: the stage returns, position ids and
    mask are passed on, the shape of the hidden states is kept. *)
Lemma transformer_stage_frame_witness :
  ParallelTransformerLayerPipe_forward (B:=shape_backend)
    (ParallelTransformerLayerPipe_init cfg4 true) tt [h0; p0; m0] = Ok [h0; p0; m0]
  /\ exists h', [h0; p0; m0] = [h'; p0; m0] /\ value_shape h' = value_shape h0.
Proof.
  destruct (transformer_stage_frame (B:=shape_backend)
              (ParallelTransformerLayerPipe_init cfg4 true) tt h0 p0 m0) as [Hinv Hok].
  assert (Hrun : ParallelTransformerLayerPipe_forward (B:=shape_backend)
            (ParallelTransformerLayerPipe_init cfg4 true) tt [h0; p0; m0]
          = Ok [h0; p0; m0]).
  { apply (Hok cfg4 true
             (mkTensor [1; 1; 2; 2] [SLong 0; SLong int64_min; SLong 0; SLong 0]) h0);
      reflexivity. }
  split; [exact Hrun |].
  destruct (Hinv _ Hrun) as (h' & Heq & Hsh).
  exists h'. split; [exact Heq |].
  apply Hsh; [exact shape_backend_one_tuple | exact shape_backend_preserves_shape].
Defined.

(** The failing input of C6 next to the stage the constructor builds. *)
Example retagged_and_fresh :
  forward (B:=shape_backend)
    (_wrap_decoder_layer (LlamaDecoderLayer_init cfg4) false) tt [h0; p0; m0]
  = Raise AttributeError
  /\ forward (B:=shape_backend)
       (ParallelTransformerLayerPipe_init cfg4 false) tt [h0; p0; m0]
     = Ok (VTuple [h0; p0; m0]).
Proof. split; reflexivity. Qed.

(** C7 on the model [cfg4]: vocabulary 10, logits of last dimension 11. *)
Lemma lm_head_projection_witness :
  exists logits,
    forward (B:=shape_backend) lm_stage tt [h0] = Ok (VTuple [VTensor logits]) /\
    last (t_shape logits) = Some 11.
Proof.
  destruct (lm_head_projection (B:=shape_backend) cfg4 None) as (_ & Hbuild & Hstage).
  destruct (Hbuild ltac:(cbn; lia) ltac:(cbn; lia)) as (stage & Hst).
  destruct (Hstage lm_stage eq_refl) as (weight & _ & _ & _ & _ & Hlast).
  destruct (Hlast shape_backend_linear tt (mkTensor [1; 2; 2]
              [SFloat pos_zero; SFloat one_f32; SFloat one_f32; SFloat pos_zero])
              (VTuple [VTensor (mkTensor [1; 2; 11] [])]) eq_refl)
    as (logits & Heq & Hl).
  exists logits. split; [| exact Hl].
  by rewrite <- Heq.
Defined.

(** C7, as stated, fails: with a vocabulary of 10 the logits have 11
    entries per position. *)
Lemma logits_last_dimension_is_not_vocab_size :
  last (stage_specs cfg4 None) = Some (Spec_LMLayerPipe 2 11 false)
  /\ (build (B:=shape_backend) (Spec_LMLayerPipe 2 11 false)
      ≫= fun stage => forward (B:=shape_backend) stage tt [h0])
     = Ok (VTuple [VTensor (mkTensor [1; 2; 11] [])])
  /\ vocab_size cfg4 = 10
  /\ 11 <> vocab_size cfg4.
Proof. repeat split; try reflexivity. cbn; lia. Qed.

(** C9 on a world of 7 workers, which 4 * 2 does not divide, and on a
    world of 8. *)
Lemma topology_divisibility_witness :
  (exists e, (e = ZeroDivisionError \/ e = AssertionError) /\
     run_get_model (B:=shape_backend) cfg4 (mkArgs 4 2 7 10) None 2
     = (Raise e, mkState (mkArgs 4 2 7 10) []))
  /\
  (exists r st rest pm,
     run_get_model (B:=shape_backend) cfg4 args4 None 2 = (r, st) /\
     st_calls st = Call_Topology 4 2 1 :: rest /\
     r = Ok pm /\
     num_pp (pm_topology pm) = 4 /\
     num_mp (pm_topology pm) = 2 /\
     num_dp (pm_topology pm) = 1).
Proof.
  split.
  - apply (proj1 (topology_divisibility (B:=shape_backend) cfg4 (mkArgs 4 2 7 10) None 2)).
    right. vm_compute. lia.
  - destruct (proj2 (topology_divisibility (B:=shape_backend) cfg4 args4 None 2))
      as (r & st & rest & Hrun & Hcalls & Hpm); [cbn; lia | reflexivity |].
    destruct (Hpm (mkCoord 1 0 0) eq_refl) as (pm & Hr & Hpp & Hmp & Hdp).
    exists r, st, rest, pm. repeat split; assumption.
Defined.

Example not_divisible_run :
  run_get_model (B:=shape_backend) cfg4 (mkArgs 4 2 7 10) (Some ∅) 2
  = (Raise AssertionError, mkState (mkArgs 4 2 7 10) [])
  /\ run_get_model (B:=shape_backend) cfg4 (mkArgs 0 2 8 10) (Some ∅) 2
     = (Raise ZeroDivisionError, mkState (mkArgs 0 2 8 10) []).
Proof. split; reflexivity. Qed.

(** C10 on the empty options mapping: no configure call, every block
    checkpointed. *)
Lemma checkpointing_gates_witness :
  existsb is_configure (st_calls st_empty_options) = false /\
  (forall config ac,
     Spec_ParallelTransformerLayerPipe config ac ∈ pm_layers pm_empty_options ->
     config = cfg4 /\ ac = true) /\
  pm_layers pm_empty_options !! 1%nat
  = Some (Spec_ParallelTransformerLayerPipe cfg4 true).
Proof.
  assert (Hrun : run_get_model (B:=shape_backend) cfg4 args4 (Some ∅) 2
                 = (Ok pm_empty_options, st_empty_options))
    by (vm_compute; reflexivity).
  destruct (checkpointing_gates (B:=shape_backend) cfg4 args4 (Some ∅) 2
              pm_empty_options st_empty_options Hrun)
    as (_ & Hflag & Hfirst & Hempty & _).
  destruct (Hempty eq_refl) as [Hcfg _].
  split; [exact Hcfg |]. split; [exact Hflag | exact Hfirst].
Defined.

Example none_and_empty_options :
  map is_configure (st_calls (snd (run_get_model (B:=shape_backend) cfg4 args4 None 2)))
  = [false; false; false; false; false; false; false; false; false; false]
  /\ stage_specs cfg4 None !! 1%nat = Some (Spec_ParallelTransformerLayerPipe cfg4 false)
  /\ stage_specs cfg4 (Some ∅) !! 1%nat = Some (Spec_ParallelTransformerLayerPipe cfg4 true).
Proof. repeat split. Qed.

(** The loss on logits of shape [(1, 2, 11)] and labels of shape [(1, 2)]. *)
Lemma loss_fn_flattens_witness :
  loss_fn (B:=shape_backend) [VTensor (mkTensor [1; 2; 11] [])]
    (VTensor (mkTensor [1; 2] [SLong 3; SLong 7]))
  = F_cross_entropy (Backend:=shape_backend) (mkTensor [1 * 2; 11] [])
      (mkTensor [1 * 2] [SLong 3; SLong 7]).
Proof.
  apply (loss_fn_flattens (B:=shape_backend) 1 2 11 [] [SLong 3; SLong 7]). lia.
Defined.

(** * Further properties *)

(** ** The topology *)

Lemma length_flat_map_blocks {A C} (f : A -> list C) (n : nat) (l : list A) :
  (forall a, length (f a) = n) ->
  length (flat_map f l) = (length l * n)%nat.
Proof.
  intros Hn. induction l as [| a l IH]; [reflexivity |].
  cbn [flat_map length]. rewrite length_app, Hn, IH. lia.
Qed.

Lemma lookup_flat_map_blocks {A C} (f : A -> list C) (n : nat) (l : list A) (i j : nat) :
  (forall a, length (f a) = n) ->
  (j < n)%nat ->
  flat_map f l !! (i * n + j)%nat = l !! i ≫= fun a => f a !! j.
Proof.
  intros Hn Hj. revert i. induction l as [| a l IH]; intros i; [by destruct i |].
  cbn [flat_map]. destruct i as [| i].
  - cbn. rewrite lookup_app_l by (rewrite Hn; lia). reflexivity.
  - rewrite lookup_app_r by (rewrite Hn; lia). rewrite Hn.
    replace (S i * n + j - n)%nat with (i * n + j)%nat by lia.
    rewrite IH. reflexivity.
Qed.

Lemma length_mapping (topo : Topology) :
  length (mapping topo)
  = (Z.to_nat (num_pp topo) * (Z.to_nat (num_dp topo) * Z.to_nat (num_mp topo)))%nat.
Proof.
  unfold mapping.
  rewrite (length_flat_map_blocks _ (Z.to_nat (num_dp topo) * Z.to_nat (num_mp topo))).
  - by rewrite length_range.
  - intros p. rewrite (length_flat_map_blocks _ (Z.to_nat (num_mp topo))).
    + by rewrite length_range.
    + intros d. by rewrite length_map, length_range.
Qed.

Lemma lookup_mapping (topo : Topology) (p d m : Z) :
  0 <= p < num_pp topo -> 0 <= d < num_dp topo -> 0 <= m < num_mp topo ->
  mapping topo !! (Z.to_nat p * (Z.to_nat (num_dp topo) * Z.to_nat (num_mp topo))
                   + (Z.to_nat d * Z.to_nat (num_mp topo) + Z.to_nat m))%nat
  = Some (mkCoord p d m).
Proof.
  intros Hp Hd Hm. unfold mapping.
  rewrite (lookup_flat_map_blocks _ (Z.to_nat (num_dp topo) * Z.to_nat (num_mp topo))).
  - unfold range at 3. rewrite lookup_seqZ_lt by lia. cbn [mbind option_bind].
    rewrite (lookup_flat_map_blocks _ (Z.to_nat (num_mp topo))).
    + unfold range at 2. rewrite lookup_seqZ_lt by lia. cbn [mbind option_bind].
      rewrite list_lookup_fmap. unfold range. rewrite lookup_seqZ_lt by lia.
      cbn. do 2 f_equal; lia.
    + intros d'. by rewrite length_map, length_range.
    + lia.
  - intros p'. rewrite (length_flat_map_blocks _ (Z.to_nat (num_mp topo))).
    + by rewrite length_range.
    + intros d'. by rewrite length_map, length_range.
  - nia.
Qed.

Lemma get_coord_valid (topo : Topology) (rank : Z) :
  0 < num_pp topo -> 0 < num_dp topo -> 0 < num_mp topo ->
  0 <= rank < num_pp topo * (num_dp topo * num_mp topo) ->
  get_coord topo rank
  = Ok (mkCoord (rank / (num_dp topo * num_mp topo))
                ((rank / num_mp topo) mod num_dp topo)
                (rank mod num_mp topo)).
Proof.
  intros Hpp Hdp Hmp Hr. unfold get_coord.
  destruct (rank <? 0) eqn:Hneg; [apply Z.ltb_lt in Hneg; lia |].
  assert (Hdm : 0 < num_dp topo * num_mp topo) by nia.
  assert (Hp : 0 <= rank / (num_dp topo * num_mp topo) < num_pp topo).
  { split; [apply Z.div_pos; lia |]. apply Z.div_lt_upper_bound; nia. }
  assert (Hd : 0 <= (rank / num_mp topo) mod num_dp topo < num_dp topo)
    by (apply Z.mod_pos_bound; lia).
  assert (Hm : 0 <= rank mod num_mp topo < num_mp topo)
    by (apply Z.mod_pos_bound; lia).
  assert (Hsplit : rank = rank / (num_dp topo * num_mp topo) * (num_dp topo * num_mp topo)
                          + ((rank / num_mp topo) mod num_dp topo * num_mp topo
                             + rank mod num_mp topo)).
  { pose proof (Z.div_mod rank (num_dp topo * num_mp topo) ltac:(lia)) as Hdiv.
    rewrite (Z.mul_comm (num_dp topo) (num_mp topo)) in Hdiv at 3.
    rewrite Z.rem_mul_r in Hdiv by lia. lia. }
  assert (Hlook : mapping topo !! Z.to_nat rank
                  = Some (mkCoord (rank / (num_dp topo * num_mp topo))
                            ((rank / num_mp topo) mod num_dp topo)
                            (rank mod num_mp topo))).
  { rewrite <- (lookup_mapping topo _ _ _ Hp Hd Hm). f_equal.
    rewrite Hsplit at 1. nia. }
  by rewrite Hlook.
Qed.

Lemma get_coord_ok_inv (topo : Topology) (rank : Z) (coord : ProcessCoord) :
  get_coord topo rank = Ok coord ->
  0 < num_pp topo /\ 0 < num_dp topo /\ 0 < num_mp topo /\
  0 <= rank < num_pp topo * (num_dp topo * num_mp topo).
Proof.
  unfold get_coord. destruct (rank <? 0) eqn:Hneg; [discriminate |].
  apply Z.ltb_ge in Hneg.
  destruct (mapping topo !! Z.to_nat rank) as [c |] eqn:Hlook; [| discriminate].
  intros _. apply lookup_lt_Some in Hlook. rewrite length_mapping in Hlook.
  assert (0 < num_pp topo) by nia. assert (0 < num_dp topo) by nia.
  assert (0 < num_mp topo) by nia. repeat split; first [lia | nia].
Qed.

(** ** More on [get_model] *)

Section GetModelProperties.
Context {B : Backend}.

Lemma divisible_world args :
  pipe_parallel_size args * model_parallel_size args <> 0 ->
  world_size args mod (pipe_parallel_size args * model_parallel_size args) = 0 ->
  world_size args
  = pipe_parallel_size args * (data_parallel_size args * model_parallel_size args).
Proof.
  intros Hnz Hmod. unfold data_parallel_size.
  pose proof (Z.div_mod (world_size args)
                (pipe_parallel_size args * model_parallel_size args) Hnz) as Hdiv.
  rewrite Hmod in Hdiv. lia.
Qed.


(** X4.  On a valid world the worker of rank [rank] is on pipeline stage
    [rank / (dp * mp)]: [get_model] hands on, and leaves in [args.seed],
    the base seed offset by [stage * mp] if that stage is interior and the
    base seed itself otherwise. *)
Theorem seed_by_rank model_config args c rank :
  0 < pipe_parallel_size args ->
  0 < model_parallel_size args ->
  world_size args mod (pipe_parallel_size args * model_parallel_size args) = 0 ->
  0 <= rank < world_size args ->
  exists pm st,
    run_get_model model_config args c rank = (Ok pm, st) /\
    seed (st_args st) = pm_base_seed pm /\
    pm_base_seed pm =
      (if (0 <? rank / (data_parallel_size args * model_parallel_size args))
          && (rank / (data_parallel_size args * model_parallel_size args)
              <? pipe_parallel_size args - 1)
       then seed args
            + rank / (data_parallel_size args * model_parallel_size args)
              * model_parallel_size args
       else seed args).
Proof.
  intros Hpp Hmp Hmod Hr.
  assert (Hnz : pipe_parallel_size args * model_parallel_size args <> 0) by nia.
  pose proof (divisible_world args Hnz Hmod) as Hws.
  assert (Hdp : 0 < data_parallel_size args) by nia.
  pose proof (get_coord_valid
    (PipeModelDataParallelTopology (pipe_parallel_size args)
       (model_parallel_size args) (data_parallel_size args)) rank
    Hpp Hdp Hmp ltac:(cbn [num_pp num_dp num_mp PipeModelDataParallelTopology]; lia))
    as Hcoord.
  eexists _, _. split; [exact (get_model_ok _ _ _ _ _ Hnz Hmod Hcoord) |].
  split; reflexivity.
Qed.

(** X5.  Workers on different interior stages get different seeds, in
    the order of the stages, and all above the base seed: for two runs on
    the same world that return for coordinates [c1] and [c2] with
    [0 < pipe c1 < pipe c2 < pp - 1], the seeds satisfy
    [seed < seed1 < seed2]. *)
Theorem interior_seeds_increase model_config args c rank1 rank2 c1 c2 :
  pipe_parallel_size args * model_parallel_size args <> 0 ->
  world_size args mod (pipe_parallel_size args * model_parallel_size args) = 0 ->
  get_coord (PipeModelDataParallelTopology (pipe_parallel_size args)
               (model_parallel_size args) (data_parallel_size args)) rank1 = Ok c1 ->
  get_coord (PipeModelDataParallelTopology (pipe_parallel_size args)
               (model_parallel_size args) (data_parallel_size args)) rank2 = Ok c2 ->
  0 < pipe c1 -> pipe c1 < pipe c2 -> pipe c2 < pipe_parallel_size args - 1 ->
  exists pm1 st1 pm2 st2,
    run_get_model model_config args c rank1 = (Ok pm1, st1) /\
    run_get_model model_config args c rank2 = (Ok pm2, st2) /\
    seed args < pm_base_seed pm1 /\
    pm_base_seed pm1 < pm_base_seed pm2.
Proof.
  intros Hnz Hmod Hc1 Hc2 H0 H12 H2.
  eexists _, _, _, _.
  split; [exact (get_model_ok _ _ _ _ _ Hnz Hmod Hc1) |].
  split; [exact (get_model_ok _ _ _ _ _ Hnz Hmod Hc2) |].
  cbn [pm_base_seed]. unfold assigned_seed.
  apply get_coord_ok_inv in Hc1 as (_ & _ & Hmp & _).
  cbn [num_mp PipeModelDataParallelTopology] in Hmp.
  replace ((0 <? pipe c1) && (pipe c1 <? pipe_parallel_size args - 1)) with true
    by (symmetry; apply andb_true_intro; split; apply Z.ltb_lt; lia).
  replace ((0 <? pipe c2) && (pipe c2 <? pipe_parallel_size args - 1)) with true
    by (symmetry; apply andb_true_intro; split; apply Z.ltb_lt; lia).
  split; nia.
Qed.


(** X7.  [get_model] assigns to [args.seed], so calling it again on the
    same [args] offsets the seed again: after two calls an interior stage
    has [seed + 2 * stage * mp], a boundary stage still the base seed. *)
Theorem get_model_twice model_config args c rank coord :
  pipe_parallel_size args * model_parallel_size args <> 0 ->
  world_size args mod (pipe_parallel_size args * model_parallel_size args) = 0 ->
  get_coord (PipeModelDataParallelTopology (pipe_parallel_size args)
               (model_parallel_size args) (data_parallel_size args)) rank = Ok coord ->
  exists pm1 st1 pm2 st2,
    run_get_model model_config args c rank = (Ok pm1, st1) /\
    run_get_model model_config (st_args st1) c rank = (Ok pm2, st2) /\
    (0 < pipe coord < pipe_parallel_size args - 1 ->
       pm_base_seed pm2 = seed args + 2 * (pipe coord * model_parallel_size args)) /\
    (pipe coord = 0 \/ pipe coord = pipe_parallel_size args - 1 ->
       pm_base_seed pm2 = seed args).
Proof.
  intros Hnz Hmod Hcoord.
  eexists _, _, _, _.
  split; [exact (get_model_ok _ _ _ _ _ Hnz Hmod Hcoord) |].
  cbn [st_args].
  split;
    [exact (get_model_ok model_config (set_seed (assigned_seed args (pipe coord)) args)
              c rank coord Hnz Hmod Hcoord) |].
  cbn [pm_base_seed]. unfold assigned_seed.
  cbn [set_seed pipe_parallel_size model_parallel_size seed]. split.
  - intros [H1 H2].
    replace ((0 <? pipe coord) && (pipe coord <? pipe_parallel_size args - 1)) with true
      by (symmetry; apply andb_true_intro; split; apply Z.ltb_lt; lia).
    lia.
  - intros Hedge.
    destruct ((0 <? pipe coord) && (pipe coord <? pipe_parallel_size args - 1)) eqn:Hint;
      [| reflexivity].
    apply andb_prop in Hint as [H1 H2]. apply Z.ltb_lt in H1, H2. lia.
Qed.

Lemma init_calls_same_options model_config (d1 d2 : gmap string value) :
  d1 ≠ ∅ -> d2 ≠ ∅ ->
  Forall (fun k => d1 !! k = d2 !! k) option_keys ->
  init_calls model_config (Some d1) = init_calls model_config (Some d2).
Proof.
  intros H1 H2 Hkeys. unfold init_calls, config_truthy, dict_get.
  rewrite !bool_decide_eq_true_2 by assumption. cbn [default from_option id].
  unfold option_keys in Hkeys.
  repeat (apply Forall_cons_1 in Hkeys as [-> Hkeys]).
  reflexivity.
Qed.

(** X8.  Of a non-empty options mapping [get_model] reads the six option
    names of lines 150-155 and nothing else: two non-empty mappings that
    agree on them give the same result and the same calls. *)
Theorem options_only_six_keys model_config args (d1 d2 : gmap string value) rank :
  d1 ≠ ∅ -> d2 ≠ ∅ ->
  Forall (fun k => d1 !! k = d2 !! k) option_keys ->
  run_get_model model_config args (Some d1) rank
  = run_get_model model_config args (Some d2) rank.
Proof.
  intros H1 H2 Hkeys.
  destruct (Z.eq_dec (pipe_parallel_size args * model_parallel_size args) 0) as [Hz | Hnz].
  { unfold run_get_model, get_model, py_mod.
    unfold mbind, M_bind, get_args, lift; cbn.
    apply Z.eqb_eq in Hz. by rewrite Hz. }
  destruct (Z.eq_dec
    (world_size args mod (pipe_parallel_size args * model_parallel_size args)) 0)
    as [Hmod | Hmod].
  2: { unfold run_get_model, get_model, py_mod.
       unfold mbind, M_bind, get_args, lift, py_assert; cbn.
       apply Z.eqb_neq in Hnz, Hmod. rewrite Hnz. cbn. by rewrite Hmod. }
  destruct (get_coord (PipeModelDataParallelTopology (pipe_parallel_size args)
              (model_parallel_size args) (data_parallel_size args)) rank)
    as [coord | e] eqn:Hcoord.
  - rewrite !(get_model_ok _ _ _ _ _ Hnz Hmod Hcoord).
    by rewrite (init_calls_same_options model_config d1 d2 H1 H2 Hkeys).
  - by rewrite !(get_model_rank_missing _ _ _ _ _ Hnz Hmod Hcoord).
Qed.

End GetModelProperties.

(** ** More on the mask-to-bias conversion *)

(** X9.  The bias of lines 30 and 41 has the mask's shape and two values
    only, the least int64 and 0, whatever the mask's entries are.  An entry
    of an integer mask is masked exactly when it is 1 (it is compared with
    [True], not tested for truth), so an entry 2 leaves the position
    visible.  A mask that is not a tensor is a [TypeError]. *)
Theorem mask_to_bias_two_values :
  (forall m, exists t,
     mask_to_bias (VTensor m) = Ok t /\
     t_shape t = t_shape m /\
     length (t_data t) = length (t_data m) /\
     Forall (fun s => s = SLong int64_min \/ s = SLong 0) (t_data t))
  /\
  (forall sh zs,
     mask_to_bias (VTensor (mkTensor sh (map SLong zs)))
     = Ok (mkTensor sh (map (fun z => SLong (if z =? 1 then int64_min else 0)) zs)))
  /\
  (forall v, value_shape v = None -> mask_to_bias v = Raise TypeError).
Proof.
  split; [| split].
  - intros [sh dt]. eexists. split; [reflexivity |].
    unfold tensor_long, where_neg_inf_0, tensor_eq_True, tmap.
    cbn [t_shape t_data]. split; [reflexivity |].
    split; [by rewrite !length_map |].
    rewrite !Forall_map. apply Forall_forall. intros s _.
    destruct s as [b | z | f]; cbn [scalar_eq_True scalar_truth scalar_long].
    + destruct b; [by left | by right].
    + destruct (z =? 1); [by left | by right].
    + destruct (SF_is_one f); [by left | by right].
  - intros sh zs. unfold mask_to_bias, tensor_long, where_neg_inf_0, tensor_eq_True, tmap.
    cbn [t_shape t_data]. do 2 f_equal. rewrite !map_map.
    apply map_ext. intros z. cbn [scalar_eq_True scalar_truth scalar_long].
    by destruct (z =? 1).
  - intros v Hv. destruct v; try reflexivity. discriminate.
Qed.

(** ** More on the stages *)

Section StageCompositions.
Context {B : Backend}.

(** X10.  The stages unpack their argument tuple and a tuple of another
    length is a [ValueError]: the embedding stage and a constructed
    transformer block (with or without checkpointing) take exactly three
    elements, the projection exactly one; the normalization stage takes
    one or more and looks at the first only. *)
Theorem stage_tuple_lengths :
  (forall self args, length args <> 3%nat ->
     EmbeddingPipe_forward self args = Raise ValueError)
  /\
  (forall config flag rng args, length args <> 3%nat ->
     ParallelTransformerLayerPipe_forward
       (ParallelTransformerLayerPipe_init config flag) rng args = Raise ValueError)
  /\
  (forall self, LayerNormPipe_forward self [] = Raise ValueError)
  /\
  (forall self hidden_states rest,
     LayerNormPipe_forward self (hidden_states :: rest)
     = LayerNormPipe_forward self [hidden_states])
  /\
  (forall self args, length args <> 1%nat ->
     LMLayerPipe_forward self args = Raise ValueError).
Proof.
  repeat split.
  - intros self args Hlen.
    by destruct args as [| a [| b [| c [| x args]]]].
  - intros config flag rng args Hlen.
    unfold ParallelTransformerLayerPipe_forward, ParallelTransformerLayerPipe_init,
      _ckpt_forward, getattr.
    cbn [m_dict]. rewrite lookup_insert_eq. cbn.
    by destruct flag; destruct args as [| a [| b [| c [| x args]]]].
  - intros self args Hlen.
    by destruct args as [| a [| b args]].
Qed.

Lemma run_blocks_bind (blocks : list (module * Rng)) (r : result (list value)) :
  foldl (fun acc blk => acc ≫= ParallelTransformerLayerPipe_forward blk.1 blk.2) r blocks
  = r ≫= run_blocks blocks.
Proof.
  unfold run_blocks. revert r.
  induction blocks as [| blk blocks IH]; intros r.
  - by destruct r.
  - cbn [foldl]. rewrite IH. destruct r as [a | e]; [| reflexivity].
    cbn. by rewrite IH.
Qed.

Lemma run_blocks_cons blk (blocks : list (module * Rng)) args :
  run_blocks (blk :: blocks) args
  = ParallelTransformerLayerPipe_forward blk.1 blk.2 args ≫= run_blocks blocks.
Proof. unfold run_blocks at 1. cbn [foldl]. by rewrite run_blocks_bind. Qed.

Lemma run_blocks_inv (blocks : list (module * Rng)) (h p m : value) out :
  run_blocks blocks [h; p; m] = Ok out ->
  exists h', out = [h'; p; m] /\
    (decoder_returns_one_tuple B -> decoder_preserves_shape B ->
     value_shape h' = value_shape h).
Proof.
  revert h. induction blocks as [| blk blocks IH]; intros h Hrun.
  - inversion Hrun. by exists h.
  - rewrite run_blocks_cons in Hrun.
    destruct (ParallelTransformerLayerPipe_forward blk.1 blk.2 [h; p; m])
      as [out1 | e] eqn:H1; [| discriminate].
    destruct (stage_forward_inv _ _ _ _ _ _ H1) as (h1 & -> & Hsh1).
    cbn in Hrun. destruct (IH _ Hrun) as (h' & -> & Hsh).
    exists h'. split; [reflexivity |]. intros Hone Hshape.
    by rewrite (Hsh Hone Hshape), (Hsh1 Hone Hshape).
Qed.


(** X12.  The stages in the order of the specification list fit each
    other.  When embedding, blocks, normalization and projection run in
    this order and the run returns, the argument was a triple
    [(input_ids, position_ids, mask)], the blocks got the embedded ids with
    the position ids and the mask, the normalization got the blocks' hidden
    states only, and the result is the one-element tuple of the
    projection's logits: position ids and mask are not part of it. *)
Theorem stages_in_order (emb nrm head : module) (blocks : list (module * Rng))
    (args out : list value) :
  ((EmbeddingPipe_forward emb args ≫= run_blocks blocks)
     ≫= LayerNormPipe_forward nrm) ≫= LMLayerPipe_forward head = Ok out ->
  exists input_ids position_ids mask embeds hidden_states normed logits,
    args = [input_ids; position_ids; mask] /\
    Embedding_forward emb input_ids = Ok embeds /\
    run_blocks blocks [embeds; position_ids; mask] = Ok [hidden_states; position_ids; mask] /\
    LlamaRMSNorm_forward nrm hidden_states = Ok normed /\
    Linear_forward head normed = Ok logits /\
    out = [logits].
Proof.
  intros Hrun.
  destruct args as [| ids [| p [| m [| x args]]]]; try discriminate.
  cbn [EmbeddingPipe_forward] in Hrun.
  destruct (Embedding_forward emb ids) as [e0 | e] eqn:He; [| discriminate].
  cbn in Hrun.
  destruct (run_blocks blocks [e0; p; m]) as [o1 | e] eqn:Hb; [| discriminate].
  destruct (run_blocks_inv _ _ _ _ _ Hb) as (hN & -> & _).
  cbn in Hrun.
  destruct (LlamaRMSNorm_forward nrm hN) as [y | e] eqn:Hn; [| discriminate].
  cbn in Hrun.
  destruct (Linear_forward head y) as [lg | e] eqn:Hl; [| discriminate].
  cbn in Hrun. inversion Hrun.
  by exists ids, p, m, e0, hN, y, lg.
Qed.

(** X13.  Out of order the stages do not fit: the projection directly
    after the embedding or after a block is a [ValueError] (it is handed
    three elements), and a block after the normalization never returns
    (it is handed one). *)
Theorem stages_out_of_order (emb blk nrm head : module) (rng : Rng) (args : list value) :
  (forall x, EmbeddingPipe_forward emb args = Ok x ->
     LMLayerPipe_forward head x = Raise ValueError)
  /\
  (forall x, ParallelTransformerLayerPipe_forward blk rng args = Ok x ->
     LMLayerPipe_forward head x = Raise ValueError)
  /\
  (forall x, LayerNormPipe_forward nrm args = Ok x ->
     exists e, ParallelTransformerLayerPipe_forward blk rng x = Raise e).
Proof.
  repeat split.
  - intros x Hx. destruct args as [| a [| b [| c [| y args]]]]; try discriminate.
    cbn in Hx. destruct (Embedding_forward emb a); by inversion Hx.
  - intros x Hx. destruct args as [| a [| b [| c [| y args]]]].
    5: { unfold ParallelTransformerLayerPipe_forward, _ckpt_forward in Hx.
         destruct (getattr blk "activation_checkpointing") as [f |]; [| discriminate].
         cbn in Hx. destruct (truthy f) as [[] |]; discriminate. }
    4: { destruct (stage_forward_inv _ _ _ _ _ _ Hx) as (h' & -> & _). reflexivity. }
    all: unfold ParallelTransformerLayerPipe_forward, _ckpt_forward in Hx;
      destruct (getattr blk "activation_checkpointing") as [f |]; [| discriminate];
      cbn in Hx; destruct (truthy f) as [[] |]; discriminate.
  - intros x Hx. destruct args as [| a args]; [discriminate |].
    cbn in Hx. destruct (LlamaRMSNorm_forward nrm a) as [y |]; [| discriminate].
    inversion Hx. unfold ParallelTransformerLayerPipe_forward, _ckpt_forward.
    destruct (getattr blk "activation_checkpointing") as [f | e]; [| by exists e].
    cbn. destruct (truthy f) as [[] | e]; [| | by exists e]; by exists ValueError.
Qed.

(** X14.  When the block's forward returns anything but a one-element
    tuple the two paths of the transformer-block stage differ: with
    checkpointing the first element of the result is the whole tuple of
    outputs, without it is the first output, or an [IndexError] when there
    is none. *)
Theorem checkpoint_keeps_other_outputs (d : gmap string value) (st : DecoderState)
    (rng : Rng) (h pos m : value) (bias : tensor) (outs : list value) :
  mask_to_bias m = Ok bias ->
  decoder_forward st rng h (VTensor bias) pos = Ok outs ->
  length outs <> 1%nat ->
  forward (mkModule ParallelTransformerLayerPipe
             (<["activation_checkpointing" := VBool true]> d) (PDecoder st))
          rng [h; pos; m]
  = Ok (VTuple [VTuple outs; pos; m])
  /\
  forward (mkModule ParallelTransformerLayerPipe
             (<["activation_checkpointing" := VBool false]> d) (PDecoder st))
          rng [h; pos; m]
  = match outs with
    | [] => Raise IndexError
    | o :: _ => Ok (VTuple [o; pos; m])
    end.
Proof.
  intros Hbias Hfw Hlen. unfold forward. cbn [m_class].
  unfold ParallelTransformerLayerPipe_forward, _ckpt_forward.
  rewrite !getattr_insert. cbn. rewrite Hbias. cbn.
  unfold checkpoint, create_custom_forward, LlamaDecoderLayer_forward.
  cbn. rewrite Hfw. cbn.
  destruct outs as [| o [| o' outs]]; [done | done | done].
Qed.

(** X15.  Re-tagging is enough for the three stages that read no
    attribute of their own: a layer of any class and with any instance
    attributes, once through [_wrap_embed_layer], [_wrap_norm_layer] or
    [_wrap_lm_layer], runs exactly as the stage of that class constructed
    on the same parameters, and as the library's own forward on the
    unpacked tuple. *)
Theorem retagged_stage_as_constructed (c : cls) (d : gmap string value) (p : payload)
    (rng : Rng) (x position_ids mask : value) :
  let layer := mkModule c d p in
  forward (_wrap_embed_layer layer) rng [x; position_ids; mask]
  = forward (mkModule EmbeddingPipe ∅ p) rng [x; position_ids; mask]
  /\ forward (_wrap_embed_layer layer) rng [x; position_ids; mask]
     = (fun y => VTuple [y; position_ids; mask]) <$> Embedding_forward layer x
  /\ forward (_wrap_norm_layer layer) rng [x; position_ids; mask]
     = forward (mkModule LayerNormPipe ∅ p) rng [x; position_ids; mask]
  /\ forward (_wrap_norm_layer layer) rng [x; position_ids; mask]
     = (fun y => VTuple [y]) <$> LlamaRMSNorm_forward layer x
  /\ forward (_wrap_lm_layer layer) rng [x]
     = forward (mkModule LMLayerPipe ∅ p) rng [x]
  /\ forward (_wrap_lm_layer layer) rng [x]
     = (fun y => VTuple [y]) <$> Linear_forward layer x.
Proof.
  cbn zeta. unfold forward, _wrap_embed_layer, _wrap_norm_layer, _wrap_lm_layer, set_class.
  cbn [m_class].
  unfold EmbeddingPipe_forward, LayerNormPipe_forward, LMLayerPipe_forward,
    Embedding_forward, LlamaRMSNorm_forward, Linear_forward.
  cbn [m_payload].
  repeat split; try reflexivity.
  - by destruct p as [w | s | w eps | w b]; try reflexivity; destruct (embedding_forward w x).
  - by destruct p as [w | s | w eps | w b]; try reflexivity;
      destruct (rms_norm_forward w eps x).
  - by destruct p as [w | s | w eps | w b]; try reflexivity; destruct (F_linear x w b).
Qed.


Lemma numel_snoc (sh : list Z) (v : Z) (dt : list scalar) :
  numel (mkTensor (sh ++ [v]) dt) = fold_right Z.mul 1 sh * v.
Proof.
  unfold numel. cbn [t_shape].
  induction sh as [| a sh IH]; cbn [app fold_right]; [lia |].
  rewrite IH. lia.
Qed.

(** X17.  [loss_fn] flattens logits of any rank: with a last dimension
    [v > 0] and leading dimensions [sh] the kernel gets them as
    [(prod sh, v)], and the labels, of whatever shape, as one row of their
    number of elements; [loss_fn] itself does not compare the two
    counts. *)
Theorem loss_fn_any_rank (sh shl : list Z) (v : Z) (dl dt : list scalar) :
  0 < v ->
  loss_fn [VTensor (mkTensor (sh ++ [v]) dl)] (VTensor (mkTensor shl dt))
  = F_cross_entropy (mkTensor [fold_right Z.mul 1 sh; v] dl)
                    (mkTensor [fold_right Z.mul 1 shl] dt).
Proof.
  intros Hv. unfold loss_fn, last_dim, view_rows, view_flat.
  cbn [t_shape t_data]. rewrite last_snoc. cbn [mbind result_bind].
  rewrite numel_snoc. rewrite Z.mod_mul, Z.div_mul by lia.
  destruct (v <=? 0) eqn:Hle; [apply Z.leb_le in Hle; lia |].
  reflexivity.
Qed.

(** X18.  What [loss_fn] refuses: outputs that are not a one-element
    tuple ([ValueError]) and logits that are not a tensor
    ([AttributeError]), whatever the labels; with labels that are a
    tensor, logits without a dimension ([IndexError]) and logits whose
    last dimension is 0 ([RuntimeError]); and labels that are not a tensor
    ([AttributeError]) when the logits could be viewed. *)
Theorem loss_fn_refuses :
  (forall outputs labels, length outputs <> 1%nat ->
     loss_fn outputs labels = Raise ValueError)
  /\
  (forall logits labels, value_shape logits = None ->
     loss_fn [logits] labels = Raise AttributeError)
  /\
  (forall dl lb, loss_fn [VTensor (mkTensor [] dl)] (VTensor lb) = Raise IndexError)
  /\
  (forall sh dl lb,
     loss_fn [VTensor (mkTensor (sh ++ [0]) dl)] (VTensor lb) = Raise RuntimeError)
  /\
  (forall sh v dl labels, 0 < v -> value_shape labels = None ->
     loss_fn [VTensor (mkTensor (sh ++ [v]) dl)] labels = Raise AttributeError).
Proof.
  repeat split.
  - intros outputs labels Hlen. by destruct outputs as [| a [| b outputs]].
  - intros logits labels Hsh. destruct logits; try reflexivity. discriminate.
  - intros sh dl lb. unfold loss_fn, last_dim. cbn [t_shape]. by rewrite last_snoc.
  - intros sh v dl labels Hv Hlab. destruct labels; try reflexivity. discriminate.
Qed.

End StageCompositions.

(** * Concrete runs of the further properties *)


(** X4 on the example world: rank 4 is on stage 2, an interior stage. *)
Lemma seed_by_rank_witness :
  exists pm st,
    run_get_model (B:=shape_backend) cfg4 args4 None 4 = (Ok pm, st) /\
    seed (st_args st) = pm_base_seed pm /\
    pm_base_seed pm = 14.
Proof.
  apply (seed_by_rank (B:=shape_backend) cfg4 args4 None 4);
    [cbn; lia | cbn; lia | reflexivity | cbn; lia].
Defined.

(** X5 on the example world: ranks 2 and 4 are on stages 1 and 2. *)
Lemma interior_seeds_increase_witness :
  exists pm1 st1 pm2 st2,
    run_get_model (B:=shape_backend) cfg4 args4 None 2 = (Ok pm1, st1) /\
    run_get_model (B:=shape_backend) cfg4 args4 None 4 = (Ok pm2, st2) /\
    10 < pm_base_seed pm1 /\
    pm_base_seed pm1 < pm_base_seed pm2.
Proof.
  apply (interior_seeds_increase (B:=shape_backend) cfg4 args4 None 2 4
           (mkCoord 1 0 0) (mkCoord 2 0 0));
    [cbn; lia | reflexivity | reflexivity | reflexivity | cbn; lia | cbn; lia | cbn; lia].
Defined.


(** X7 on the example world: rank 2 called twice ends with seed
    10 + 2 * (1 * 2). *)
Lemma get_model_twice_witness :
  exists pm1 st1 pm2 st2,
    run_get_model (B:=shape_backend) cfg4 args4 None 2 = (Ok pm1, st1) /\
    run_get_model (B:=shape_backend) cfg4 (st_args st1) None 2 = (Ok pm2, st2) /\
    pm_base_seed pm2 = 14.
Proof.
  destruct (get_model_twice (B:=shape_backend) cfg4 args4 None 2 (mkCoord 1 0 0))
    as (pm1 & st1 & pm2 & st2 & H1 & H2 & Hin & _);
    [cbn; lia | reflexivity | reflexivity |].
  exists pm1, st1, pm2, st2. split; [exact H1 |]. split; [exact H2 |].
  apply Hin. cbn. lia.
Defined.

(** X8 on two option mappings that differ in a name [get_model] does not
    read. *)
Lemma options_only_six_keys_witness :
  run_get_model (B:=shape_backend) cfg4 args4 (Some options_a) 2
  = run_get_model (B:=shape_backend) cfg4 args4 (Some options_b) 2.
Proof.
  apply (options_only_six_keys (B:=shape_backend) cfg4 args4 options_a options_b 2).
  - apply insert_non_empty.
  - apply insert_non_empty.
  - repeat constructor.
Defined.

(** X9 on an integer mask with the entries 1, 0 and 2. *)
Lemma mask_to_bias_two_values_witness :
  mask_to_bias (VTensor (mkTensor [3] [SLong 1; SLong 0; SLong 2]))
  = Ok (mkTensor [3] [SLong int64_min; SLong 0; SLong 0]).
Proof.
  exact (proj1 (proj2 mask_to_bias_two_values) [3] [1; 0; 2]).
Defined.

(** X10 on a pair given to a block stage. *)
Lemma stage_tuple_lengths_witness :
  ParallelTransformerLayerPipe_forward (B:=shape_backend)
    (ParallelTransformerLayerPipe_init cfg4 true) tt [h0; p0] = Raise ValueError.
Proof.
  apply (proj1 (proj2 (stage_tuple_lengths (B:=shape_backend)))). cbn. lia.
Defined.


(** X12 on the shape-only backend: ids of shape [(1, 2)] through
    embedding, two blocks, normalization and projection. *)
Lemma stages_in_order_witness :
  exists input_ids position_ids mask embeds hidden_states normed logits,
    [ids0; p0; m0] = [input_ids; position_ids; mask] /\
    Embedding_forward emb0 input_ids = Ok embeds /\
    run_blocks (B:=shape_backend)
      [(ParallelTransformerLayerPipe_init cfg4 true, tt);
       (ParallelTransformerLayerPipe_init cfg4 false, tt)]
      [embeds; position_ids; mask] = Ok [hidden_states; position_ids; mask] /\
    LlamaRMSNorm_forward norm0 hidden_states = Ok normed /\
    Linear_forward lm_stage normed = Ok logits /\
    [VTensor (mkTensor [1; 2; 11] [])] = [logits].
Proof.
  apply (stages_in_order (B:=shape_backend) emb0 norm0 lm_stage
           [(ParallelTransformerLayerPipe_init cfg4 true, tt);
            (ParallelTransformerLayerPipe_init cfg4 false, tt)]
           [ids0; p0; m0] [VTensor (mkTensor [1; 2; 11] [])]).
  vm_compute. reflexivity.
Defined.

(** X14 on a block that returns its hidden states and a second output. *)
Lemma checkpoint_keeps_other_outputs_witness :
  forward (B:=two_output_backend)
    (mkModule ParallelTransformerLayerPipe
       (<["activation_checkpointing" := VBool true]> ∅)
       (PDecoder (B:=two_output_backend) cfg4)) tt [h0; p0; m0]
  = Ok (VTuple [VTuple [h0; VNone]; p0; m0])
  /\
  forward (B:=two_output_backend)
    (mkModule ParallelTransformerLayerPipe
       (<["activation_checkpointing" := VBool false]> ∅)
       (PDecoder (B:=two_output_backend) cfg4)) tt [h0; p0; m0]
  = Ok (VTuple [h0; p0; m0]).
Proof.
  apply (checkpoint_keeps_other_outputs (B:=two_output_backend) ∅ cfg4 tt h0 p0 m0
           (mkTensor [1; 1; 2; 2] [SLong 0; SLong int64_min; SLong 0; SLong 0])
           [h0; VNone]);
    [reflexivity | reflexivity | cbn; lia].
Defined.


(** X17 on logits of shape [(2, 3, 4, 11)] and labels of shape
    [(2, 3, 4)]. *)
Lemma loss_fn_any_rank_witness :
  loss_fn (B:=shape_backend) [VTensor (mkTensor [2; 3; 4; 11] [])]
    (VTensor (mkTensor [2; 3; 4] []))
  = F_cross_entropy (Backend:=shape_backend) (mkTensor [24; 11] []) (mkTensor [24] []).
Proof.
  apply (loss_fn_any_rank (B:=shape_backend) [2; 3; 4] [2; 3; 4] 11 [] []). lia.
Defined.

(** X18 on logits of a good shape with labels that are missing. *)
Lemma loss_fn_refuses_witness :
  loss_fn (B:=shape_backend) [VTensor (mkTensor [2; 11] [])] VNone = Raise AttributeError.
Proof.
  apply (proj2 (proj2 (proj2 (proj2 (loss_fn_refuses (B:=shape_backend)))))
           [2] 11 [] VNone); [lia | reflexivity].
Defined.
